(** * UniShortcuts: the [Shortcut] record and the metadata resolution of
      [build_shortcuts], embedded from [unishortcuts.py].

    Conventions of the embedding.
    - Python [str] values are [string]s whose characters are read as the
      code points 0..255.
    - Paths are POSIX pure paths (the drive is always empty).
    - A Python object that is mutated in place ([Shortcut] instances) lives
      in a heap indexed by references; the class attribute [_instances] is a
      list of set entries, each with the hash it was stored under.
    - Exceptions are values of [exn]; a setter that assigns before it raises
      hands back the record as it stands at the raise. *)

From Stdlib Require Import ZArith String Ascii List Bool Lia DecimalString.
From stdpp Require Import base list strings.

Import ListNotations.
Local Open Scope string_scope.
Local Open Scope Z_scope.

(** ** Strings as the source uses them *)

Module PyStr.

(** [str.isspace] on one character, for code points below 256. *)
Definition isspace (c : ascii) : bool :=
  let n := nat_of_ascii c in
  ((9 <=? n) && (n <=? 13) || (28 <=? n) && (n <=? 32)
   || (n =? 133) || (n =? 160))%nat.

Fixpoint lstrip (s : string) : string :=
  match s with
  | EmptyString => EmptyString
  | String c s' => if isspace c then lstrip s' else s
  end.

Fixpoint rstrip (s : string) : string :=
  match s with
  | EmptyString => EmptyString
  | String c s' =>
      match rstrip s' with
      | EmptyString => if isspace c then EmptyString else String c EmptyString
      | t => String c t
      end
  end.

(** [s.strip()] *)
Definition strip (s : string) : string := rstrip (lstrip s).

(** [s.startswith(p)] *)
Definition startswith (s p : string) : bool := String.prefix p s.

Fixpoint rev_acc (s acc : string) : string :=
  match s with
  | EmptyString => acc
  | String c s' => rev_acc s' (String c acc)
  end.

Definition srev (s : string) : string := rev_acc s EmptyString.

(** [s.split(sep)] for a non-empty separator: left to right, without
    overlap.  [cur] is the current token, reversed; [skip] counts the
    characters of a separator that was recognised and is being passed. *)
Fixpoint split_go (sep s cur : string) (skip : nat) : list string :=
  match s with
  | EmptyString => [srev cur]
  | String c s' =>
      match skip with
      | S k => split_go sep s' cur k
      | O =>
          if String.prefix sep s
          then srev cur :: split_go sep s' EmptyString (String.length sep - 1)
          else split_go sep s' (String c cur) O
      end
  end.

Definition split (sep s : string) : list string :=
  split_go sep s EmptyString O.

(** [re.split(r',\s*|\s+', s)].  Both alternatives consume at least one
    character and then every following white space, so the scan has two
    modes: inside a token, or inside a separator. *)
Fixpoint re_split_go (s cur : string) (insep : bool) : list string :=
  match s with
  | EmptyString => [srev cur]
  | String c s' =>
      if insep then
        if isspace c then re_split_go s' EmptyString true
        else if Ascii.eqb c "," then EmptyString :: re_split_go s' EmptyString true
        else re_split_go s' (String c EmptyString) false
      else
        if isspace c || Ascii.eqb c ","
        then srev cur :: re_split_go s' EmptyString true
        else re_split_go s' (String c cur) false
  end.

Definition re_split (s : string) : list string :=
  re_split_go s EmptyString false.

(** ["sep".join(l)] *)
Fixpoint join (sep : string) (l : list string) : string :=
  match l with
  | [] => EmptyString
  | [x] => x
  | x :: l' => x ++ sep ++ join sep l'
  end.

(** [s.rfind(".")], as an index from the left. *)
Fixpoint rfind_dot (s : string) : option nat :=
  match s with
  | EmptyString => None
  | String c s' =>
      match rfind_dot s' with
      | Some i => Some (S i)
      | None => if Ascii.eqb c "." then Some O else None
      end
  end.

Fixpoint drop (n : nat) (s : string) : string :=
  match n, s with
  | S k, String _ s' => drop k s'
  | _, _ => s
  end.

(** [sub in s] between two strings. *)
Fixpoint contains (sub s : string) : bool :=
  String.prefix sub s
  || match s with
     | EmptyString => false
     | String _ s' => contains sub s'
     end.

End PyStr.

(** ** POSIX pure paths ([pathlib]) *)

Record PurePath := mkPath { root : string; parts : list string }.

Module PyPath.

Definition part_kept (c : string) : bool :=
  negb (String.eqb c "" || String.eqb c ".").

(** [Path(s)] for a string: one or three and more leading slashes make the
    root ["/"], exactly two make ["//"]; empty and ["."] components go. *)
Definition of_str (s : string) : PurePath :=
  let r :=
    if PyStr.startswith s "/" then
      if PyStr.startswith s "//" && negb (PyStr.startswith s "///")
      then "//" else "/"
    else "" in
  mkPath r (filter (fun c => part_kept c = true) (PyStr.split "/" s)).

(** [str(p)] *)
Definition to_str (p : PurePath) : string :=
  match root p, parts p with
  | EmptyString, [] => "."
  | r, ps => r ++ PyStr.join "/" ps
  end.

(** [p == q] *)
Definition eqb (p q : PurePath) : bool :=
  String.eqb (root p) (root q)
  && bool_decide (parts p = parts q).

(** [p / q]: an absolute right operand replaces the left one. *)
Definition joinpath (p q : PurePath) : PurePath :=
  match root q with
  | EmptyString => mkPath (root p) (parts p ++ parts q)%list
  | _ => q
  end.

(** [p.name] *)
Definition name (p : PurePath) : string := List.last (parts p) "".

(** [p.suffix]: the part of the name from its last dot, when that dot is
    neither the first nor the last character. *)
Definition suffix (p : PurePath) : string :=
  let n := name p in
  match PyStr.rfind_dot n with
  | Some i =>
      if ((0 <? i) && (i <? String.length n - 1))%nat
      then PyStr.drop i n else ""
  | None => ""
  end.

(** [q] lies in the tree below [base]. *)
Definition under (base q : PurePath) : bool :=
  String.eqb (root base) (root q)
  && bool_decide (parts base `prefix_of` parts q).

End PyPath.

(** ** Python values, exceptions *)

(** The scalar values a caller passes for a field. *)
Inductive atom :=
| ANone
| ABool (b : bool)
| AInt (z : Z)
| AStr (s : string)
| APath (p : PurePath).

(** A field argument: a scalar, or a [list] of scalars. *)
Inductive pyval :=
| Atom (a : atom)
| PyList (l : list atom).

Inductive exn :=
  AttributeError | TypeError | KeyError | NotImplementedError | ValueError.

Module Py.

(** [bool(a)] *)
Definition truthy (a : atom) : bool :=
  match a with
  | ANone => false
  | ABool b => b
  | AInt z => negb (z =? 0)
  | AStr s => negb (String.eqb s "")
  | APath _ => true
  end.

Definition truthy_val (v : pyval) : bool :=
  match v with
  | Atom a => truthy a
  | PyList l => negb (bool_decide (l = []))
  end.

(** [str(a)] *)
Definition str (a : atom) : string :=
  match a with
  | ANone => "None"
  | ABool true => "True"
  | ABool false => "False"
  | AInt z => NilZero.string_of_int (Z.to_int z)
  | AStr s => s
  | APath p => PyPath.to_str p
  end.

Definition bool_int (b : bool) : Z := if b then 1 else 0.

(** [a == b].  [bool] is a subclass of [int]; values of unrelated types
    never compare equal ([str] and [PurePath] answer [NotImplemented] to
    each other, which leaves the identity test). *)
Definition eq (a b : atom) : bool :=
  match a, b with
  | ANone, ANone => true
  | ABool x, ABool y => Bool.eqb x y
  | ABool x, AInt y | AInt y, ABool x => bool_int x =? y
  | AInt x, AInt y => x =? y
  | AStr x, AStr y => String.eqb x y
  | APath p, APath q => PyPath.eqb p q
  | _, _ => false
  end.

(** [a != b] *)
Definition ne (a b : atom) : bool := negb (eq a b).

(** [v in l] for a list or tuple [l] of strings. *)
Definition in_strs (v : pyval) (l : list string) : bool :=
  match v with
  | Atom a => existsb (fun c => eq a (AStr c)) l
  | PyList _ => false
  end.

(** [Path(a)]: only strings and paths are path-like. *)
Definition to_path (a : atom) : exn + PurePath :=
  match a with
  | AStr s => inr (PyPath.of_str s)
  | APath p => inr p
  | _ => inl TypeError
  end.

Fixpoint to_paths (l : list atom) : exn + list PurePath :=
  match l with
  | [] => inr []
  | a :: l' =>
      match to_path a with
      | inl e => inl e
      | inr p =>
          match to_paths l' with
          | inl e => inl e
          | inr ps => inr (p :: ps)
          end
      end
  end.

End Py.

(** ** Module constants *)

(** [_get_platform()], as a function of what it reads: [os.name] and
    [sys.platform].  Falling off the end of the body returns [None]. *)
Definition _get_platform (os_name sys_platform : string) : option string :=
  if String.eqb sys_platform "darwin" then Some "darwin"
  else if String.eqb os_name "nt" || PyStr.startswith sys_platform "win"
  then Some "win"
  else if PyStr.startswith sys_platform "linux" then Some "linux"
  else None.

Definition _FREE_DESKTOP_CATEGORIES : list string :=
  ["AudioVideo"; "Audio"; "Video"; "Development";
   "Education"; "Game"; "Graphics"; "Network";
   "Office"; "Settings"; "System"; "Utility"].

Definition _LINUX_SPECIAL_ARGS : list (string * string) :=
  [("SINGLE_FILE", "%f"); ("FILES_LIST", "%F");
   ("SINGLE_URL", "%u"); ("URLS_LIST", "%U")].

Definition _ICON_EXT : list (string * list string) :=
  [("linux", ["ico"; "svg"; "png"]); ("win", ["ico"]); ("darwin", ["icns"])].

(** [d[k]] for a dictionary with string keys and a key that may be [None]. *)
Fixpoint dict_get {V} (d : list (string * V)) (k : option string) : exn + V :=
  match d, k with
  | (k', v) :: d', Some s => if String.eqb k' s then inr v else dict_get d' k
  | _, _ => inl KeyError
  end.

(** ** The [Shortcut] record and its setters *)

Record Shortcut := mkShortcut {
  _script : string;
  _name : string;
  _generic_name : string;
  _description : string;
  _icon : list PurePath;
  _arguments : list string;
  _special_arg : string;
  _category : string;
  _keywords : list string;
  _mime_type : list string
}.

(** What a setter leaves behind: the record, and the exception if it raised. *)
Inductive outcome :=
| Normal (r : Shortcut)
| Raised (e : exn) (r : Shortcut).

Definition record_of (o : outcome) : Shortcut :=
  match o with Normal r | Raised _ r => r end.

Definition and_then (o : outcome) (k : Shortcut -> outcome) : outcome :=
  match o with
  | Normal r => k r
  | Raised e r => Raised e r
  end.

Notation "o >>> k" := (and_then o k) (at level 61, left associativity).

Module Shortcut_.

Definition with_script (x : string) (r : Shortcut) : Shortcut :=
  mkShortcut x (_name r) (_generic_name r) (_description r) (_icon r)
    (_arguments r) (_special_arg r) (_category r) (_keywords r) (_mime_type r).
Definition with_name (x : string) (r : Shortcut) : Shortcut :=
  mkShortcut (_script r) x (_generic_name r) (_description r) (_icon r)
    (_arguments r) (_special_arg r) (_category r) (_keywords r) (_mime_type r).
Definition with_generic_name (x : string) (r : Shortcut) : Shortcut :=
  mkShortcut (_script r) (_name r) x (_description r) (_icon r)
    (_arguments r) (_special_arg r) (_category r) (_keywords r) (_mime_type r).
Definition with_description (x : string) (r : Shortcut) : Shortcut :=
  mkShortcut (_script r) (_name r) (_generic_name r) x (_icon r)
    (_arguments r) (_special_arg r) (_category r) (_keywords r) (_mime_type r).
Definition with_icon (x : list PurePath) (r : Shortcut) : Shortcut :=
  mkShortcut (_script r) (_name r) (_generic_name r) (_description r) x
    (_arguments r) (_special_arg r) (_category r) (_keywords r) (_mime_type r).
Definition with_arguments (x : list string) (r : Shortcut) : Shortcut :=
  mkShortcut (_script r) (_name r) (_generic_name r) (_description r) (_icon r)
    x (_special_arg r) (_category r) (_keywords r) (_mime_type r).
Definition with_special_arg (x : string) (r : Shortcut) : Shortcut :=
  mkShortcut (_script r) (_name r) (_generic_name r) (_description r) (_icon r)
    (_arguments r) x (_category r) (_keywords r) (_mime_type r).
Definition with_category (x : string) (r : Shortcut) : Shortcut :=
  mkShortcut (_script r) (_name r) (_generic_name r) (_description r) (_icon r)
    (_arguments r) (_special_arg r) x (_keywords r) (_mime_type r).
Definition with_keywords (x : list string) (r : Shortcut) : Shortcut :=
  mkShortcut (_script r) (_name r) (_generic_name r) (_description r) (_icon r)
    (_arguments r) (_special_arg r) (_category r) x (_mime_type r).
Definition with_mime_type (x : list string) (r : Shortcut) : Shortcut :=
  mkShortcut (_script r) (_name r) (_generic_name r) (_description r) (_icon r)
    (_arguments r) (_special_arg r) (_category r) (_keywords r) x.

(** [str(s) if s else ''] *)
Definition str_or_empty (s : atom) : string :=
  if Py.truthy s then Py.str s else "".

Definition set_script (s : atom) (r : Shortcut) : outcome :=
  Normal (with_script (str_or_empty s) r).
Definition set_name (s : atom) (r : Shortcut) : outcome :=
  Normal (with_name (str_or_empty s) r).
Definition set_generic_name (s : atom) (r : Shortcut) : outcome :=
  Normal (with_generic_name (str_or_empty s) r).
Definition set_description (s : atom) (r : Shortcut) : outcome :=
  Normal (with_description (str_or_empty s) r).

(** The loop that closes the icon setter: [i.root] is a string and the
    base directory a path, and they are compared with [!=]. *)
Fixpoint check_icons (here : PurePath) (l : list PurePath) : option exn :=
  match l with
  | [] => None
  | i :: l' =>
      if Py.ne (AStr (root i)) (APath here) then Some AttributeError
      else check_icons here l'
  end.

(** The icon setter assigns [_icon] first and checks afterwards. *)
Definition set_icon (here : PurePath) (s : pyval) (r : Shortcut) : outcome :=
  let built :=
    match s with
    | PyList l => Py.to_paths l
    | Atom a =>
        if Py.truthy a then
          match Py.to_path a with
          | inl e => inl e
          | inr p => inr [p]
          end
        else inr []
    end in
  match built with
  | inl e => Raised e r
  | inr ps =>
      let r' := with_icon ps r in
      match check_icons here ps with
      | Some e => Raised e r'
      | None => Normal r'
      end
  end.

(** The coercion shared by [arguments], [keywords] and [mime_type]. *)
Definition str_list (s : pyval) : exn + list string :=
  match s with
  | PyList l => inr (map Py.str l)
  | Atom (AStr x) => inr (PyStr.re_split x)
  | Atom ANone => inr []
  | Atom _ => inl TypeError
  end.

Definition set_arguments (s : pyval) (r : Shortcut) : outcome :=
  match str_list s with
  | inr l => Normal (with_arguments l r)
  | inl e => Raised e r
  end.

Definition set_special_arg (s : pyval) (r : Shortcut) : outcome :=
  match s with
  | Atom ANone => Normal (with_special_arg "" r)
  | Atom (AStr x) =>
      if existsb (fun kv => String.eqb x (fst kv)) _LINUX_SPECIAL_ARGS
      then Normal (with_special_arg x r)
      else Raised TypeError r
  | _ => Raised TypeError r
  end.

(** A value found in the list of categories equals one of its strings, so
    it is a string; the last branch of the first [match] is never taken. *)
Definition set_category (s : pyval) (r : Shortcut) : outcome :=
  if Py.in_strs s _FREE_DESKTOP_CATEGORIES then
    match s with
    | Atom (AStr c) => Normal (with_category c r)
    | _ => Raised TypeError r
    end
  else
    match s with
    | Atom ANone => Normal (with_category "" r)
    | _ => Raised TypeError r
    end.

Definition set_keywords (s : pyval) (r : Shortcut) : outcome :=
  match str_list s with
  | inr l => Normal (with_keywords l r)
  | inl e => Raised e r
  end.

Definition set_mime_type (s : pyval) (r : Shortcut) : outcome :=
  match str_list s with
  | inr l => Normal (with_mime_type l r)
  | inl e => Raised e r
  end.

(** [__eq__] between two instances of the class, [__hash__]. *)
Definition eq (self other : Shortcut) : bool :=
  String.eqb (_name other) (_name self).

Definition hash (str_hash : string -> Z) (self : Shortcut) : Z :=
  str_hash (_name self).

End Shortcut_.

(** ** The registry and the build command *)

(** An entry of the set [Shortcut._instances]: the hash the element had when
    it was added, and the element.  A set never recomputes the hash of an
    element it holds. *)
Record entry := mkEntry { e_hash : Z; e_ref : nat }.

(** The mutable objects of a run: the instances, and the class attribute. *)
Record world := mkWorld { heap : list Shortcut; _instances : list entry }.

(** The arguments of [Shortcut(...)]. *)
Record init_args := mkArgs {
  arg_script : atom;
  arg_name : atom;
  arg_generic_name : atom;
  arg_description : atom;
  arg_icon : pyval;
  arg_arguments : pyval;
  arg_special_arg : pyval;
  arg_category : pyval;
  arg_keywords : pyval;
  arg_mime_type : pyval
}.

(** [Shortcut(script)]: every other argument takes its default, [None]. *)
Definition only_script (script : atom) : init_args :=
  mkArgs script ANone ANone ANone (Atom ANone) (Atom ANone) (Atom ANone)
    (Atom ANone) (Atom ANone) (Atom ANone).

(** What the file system answers to the calls the source makes.  [glob]
    gives the matches of a pattern that [Path.glob] accepts; the patterns
    it refuses are those of [glob_pattern_error].  The file system is one
    that answers: the errors of the operating system, such as a directory
    that may not be read, are not part of it. *)
Record FS := mkFS {
  is_dir : PurePath -> bool;
  exists_ : PurePath -> bool;
  glob : PurePath -> string -> list PurePath
}.

(** [self.distribution.metadata] *)
Record Metadata := mkMetadata {
  get_description : atom;
  get_classifiers : list string;
  get_keywords : pyval
}.

(** What a run of the command depends on besides the registry.
    [iter_order] is the order in which a [for] loop meets the entries of
    the set: Python leaves it to the hash table. *)
Record Env := mkEnv {
  fs : FS;
  os_name : string;
  sys_platform : string;
  metadata : Metadata;
  iter_order : list entry -> list entry
}.

(** What [Path.glob] (pathlib of Python 3.11) refuses before it looks at
    the directory: a pattern with a root, with [NotImplementedError], and a
    pattern with a component that holds [**] without being [**], with
    [ValueError]. *)
Definition glob_pattern_error (pattern : string) : option exn :=
  let p := PyPath.of_str pattern in
  if negb (String.eqb (root p) "") then Some NotImplementedError
  else if existsb (fun c => PyStr.contains "**" c && negb (String.eqb c "**"))
                  (parts p)
  then Some ValueError
  else None.

(** An instance before [__init__] has assigned anything. *)
Definition blank : Shortcut := mkShortcut "" "" "" "" [] [] "" "" [] [].

Definition deref (h : list Shortcut) (r : nat) : Shortcut :=
  default blank (h !! r).

(** [l.remove(x)]: the first element equal to [x] goes. *)
Fixpoint list_remove (x : PurePath) (l : list PurePath) : list PurePath :=
  match l with
  | [] => []
  | y :: l' => if PyPath.eqb y x then l' else y :: list_remove x l'
  end.

Section Program.

(** [hash] on strings, and the directory of the module, [_here]. *)
Variable str_hash : string -> Z.
Variable _here : PurePath.

Definition __init__ (a : init_args) (self : Shortcut) : outcome :=
  Shortcut_.set_script (arg_script a) self
  >>> Shortcut_.set_name (arg_name a)
  >>> Shortcut_.set_generic_name (arg_generic_name a)
  >>> Shortcut_.set_description (arg_description a)
  >>> Shortcut_.set_icon _here (arg_icon a)
  >>> Shortcut_.set_arguments (arg_arguments a)
  >>> Shortcut_.set_special_arg (arg_special_arg a)
  >>> Shortcut_.set_category (arg_category a)
  >>> Shortcut_.set_keywords (arg_keywords a)
  >>> Shortcut_.set_mime_type (arg_mime_type a).

(** The test a set makes between a held entry and the element [x] that is
    being added: same stored hash, and then identity or [__eq__]. *)
Definition entry_matches (h : list Shortcut) (x : nat) (e : entry) : bool :=
  (e_hash e =? Shortcut_.hash str_hash (deref h x))
  && ((e_ref e =? x)%nat || Shortcut_.eq (deref h (e_ref e)) (deref h x)).

(** [s.add(x)] *)
Definition set_add (h : list Shortcut) (s : list entry) (x : nat) : list entry :=
  if existsb (entry_matches h x) s then s
  else (s ++ [mkEntry (Shortcut_.hash str_hash (deref h x)) x])%list.

(** [Shortcut.__new__]: when [__init__] raises, the instance is lost and
    the registry is not touched. *)
Definition __new__ (a : init_args) (w : world) : (exn + nat) * world :=
  match __init__ a blank with
  | Raised e _ => (inl e, w)
  | Normal r =>
      let instance := length (heap w) in
      let h := (heap w ++ [r])%list in
      (inr instance, mkWorld h (set_add h (_instances w) instance))
  end.

(** The call [Shortcut(...)].  Python runs [__new__] and then, since what
    it returns is an instance of the class, [__init__] once more on that
    instance with the same arguments. *)
Definition Shortcut_call (a : init_args) (w : world) : (exn + nat) * world :=
  match __new__ a w with
  | (inl e, w1) => (inl e, w1)
  | (inr instance, w1) =>
      let o := __init__ a (deref (heap w1) instance) in
      let w2 := mkWorld (<[instance := record_of o]> (heap w1)) (_instances w1) in
      match o with
      | Normal _ => (inr instance, w2)
      | Raised e _ => (inl e, w2)
      end
  end.

(** *** [build_shortcuts._get_metadatas], statement by statement *)

(** The [for s in Shortcut._instances] loop with its [break]. *)
Definition scan (env : Env) (w : world) (script : string) (shortcut : nat) : nat :=
  match List.find (fun e => String.eqb (_script (deref (heap w) (e_ref e))) script)
                  (iter_order env (_instances w)) with
  | Some e => e_ref e
  | None => shortcut
  end.

Definition fill_name (r : Shortcut) : outcome :=
  if String.eqb (_name r) "" then Shortcut_.set_name (AStr (_script r)) r
  else Normal r.

Definition fill_generic_name (r : Shortcut) : outcome :=
  if String.eqb (_generic_name r) "" then Shortcut_.set_generic_name (AStr (_name r)) r
  else Normal r.

(** The comprehension that filters the globbed files: the table is looked
    up once per file. *)
Fixpoint select_icons (plat : option string) (icons : list PurePath)
  : exn + list PurePath :=
  match icons with
  | [] => inr []
  | ic :: rest =>
      match dict_get _ICON_EXT plat with
      | inl e => inl e
      | inr exts =>
          match select_icons plat rest with
          | inl e => inl e
          | inr l =>
              inr (if existsb (String.eqb (PyPath.suffix ic)) exts
                   then ic :: l else l)
          end
      end
  end.

(** [for ic in shortcut.icon: if not ic.exists(): shortcut.icon.remove(ic)].
    The loop walks the list by index while the body shortens that same
    list.  [fuel] bounds the number of rounds. *)
Fixpoint prune_loop (x : FS) (fuel i : nat) (l : list PurePath) : list PurePath :=
  match fuel with
  | O => l
  | S fuel' =>
      match l !! i with
      | None => l
      | Some ic =>
          if exists_ x ic then prune_loop x fuel' (S i) l
          else prune_loop x fuel' (S i) (list_remove ic l)
      end
  end.

Definition prune_icons (x : FS) (l : list PurePath) : list PurePath :=
  prune_loop x (length l) 0 l.

Definition fill_icon (env : Env) (r : Shortcut) : outcome :=
  match _icon r with
  | [] =>
      let data := PyPath.joinpath _here (PyPath.of_str "data") in
      if is_dir (fs env) data then
        match glob_pattern_error (_name r ++ ".*") with
        | Some e => Raised e r
        | None =>
            let icons := glob (fs env) data (_name r ++ ".*") in
            match select_icons (_get_platform (os_name env) (sys_platform env))
                               icons with
            | inl e => Raised e r
            | inr icons' => Shortcut_.set_icon _here (PyList (map APath icons')) r
            end
        end
      else Shortcut_.set_icon _here (Atom ANone) r
  | l => Normal (Shortcut_.with_icon (prune_icons (fs env) l) r)
  end.

Definition fill_description (env : Env) (r : Shortcut) : outcome :=
  if String.eqb (_description r) ""
  then Shortcut_.set_description (get_description (metadata env)) r
  else Normal r.

(** The inner loop over the segments of one classifier, with its [break]. *)
Fixpoint first_category (segs : list string) (r : Shortcut) : outcome :=
  match segs with
  | [] => Normal r
  | c :: rest =>
      if existsb (String.eqb c) _FREE_DESKTOP_CATEGORIES
      then Shortcut_.set_category (Atom (AStr c)) r
      else first_category rest r
  end.

(** The body of the outer loop. *)
Definition classifier_step (cf : string) (r : Shortcut) : outcome :=
  let segs := map PyStr.strip (PyStr.split "::" cf) in
  if bool_decide (head segs = Some "Topic") then first_category segs r
  else Normal r.

(** The outer loop: nothing leaves it before the last classifier. *)
Fixpoint each_classifier (cfs : list string) (r : Shortcut) : outcome :=
  match cfs with
  | [] => Normal r
  | cf :: rest => classifier_step cf r >>> each_classifier rest
  end.

Definition fill_category (env : Env) (r : Shortcut) : outcome :=
  if String.eqb (_category r) ""
  then each_classifier (get_classifiers (metadata env)) r
  else Normal r.

Definition fill_keywords (env : Env) (r : Shortcut) : outcome :=
  match _keywords r with
  | [] => Shortcut_.set_keywords (get_keywords (metadata env)) r
  | _ => Normal r
  end.

(** Everything between the scan and the [return]. *)
Definition fill (env : Env) (r : Shortcut) : outcome :=
  fill_name r
  >>> fill_generic_name
  >>> fill_icon env
  >>> fill_description env
  >>> fill_category env
  >>> fill_keywords env.

Definition _get_metadatas (env : Env) (script : string) (w : world)
  : (exn + nat) * world :=
  match Shortcut_call (only_script (AStr script)) w with
  | (inl e, w1) => (inl e, w1)
  | (inr bare, w1) =>
      let shortcut := scan env w1 script bare in
      let o := fill env (deref (heap w1) shortcut) in
      let w2 := mkWorld (<[shortcut := record_of o]> (heap w1)) (_instances w1) in
      match o with
      | Normal _ => (inr shortcut, w2)
      | Raised e _ => (inl e, w2)
      end
  end.

End Program.

(** The registry before any [Shortcut] was made. *)
Definition empty_world : world := mkWorld [] [].

(** ** Conditions on a run *)

(** Every element of the registry is an allocated instance. *)
Definition wf_world (w : world) : Prop :=
  Forall (fun e => (e_ref e < length (heap w))%nat) (_instances w).

(** No registered record was declared for [script]. *)
Definition undeclared (script : string) (w : world) : Prop :=
  Forall (fun e => _script (deref (heap w) (e_ref e)) <> script) (_instances w).

(** A loop over the set meets every entry once, in some order. *)
Definition unordered (env : Env) : Prop :=
  forall l, Permutation (iter_order env l) l.

(** The three tags of the platform table. *)
Definition platform_tags : list string := ["darwin"; "win"; "linux"].

(** ** A sample package

    The package of the resolution scenarios: a module installed in [/pkg],
    no data directory, and the metadata of the sample application. *)

Module Sample.

Definition pkg : PurePath := PyPath.of_str "/pkg".

(** A stand-in for [hash] on strings where a concrete one is needed; like
    CPython's, it gives 0 on the empty string. *)
Definition str_hash (s : string) : Z := Z.of_nat (String.length s).

Definition no_files : FS :=
  mkFS (fun _ => false) (fun _ => false) (fun _ _ => []).

Definition md : Metadata :=
  mkMetadata (AStr "A sample app") ["Topic :: Utility"]
    (PyList [AStr "sample"; AStr "app"]).

(** The set is walked from its oldest entry to its newest ... *)
Definition oldest_first : Env :=
  mkEnv no_files "posix" "linux" md (fun l => l).

(** ... or from its newest to its oldest. *)
Definition newest_first : Env :=
  mkEnv no_files "posix" "linux" md (@rev entry).

(** [Shortcut("myapp", name="My Application", category="Graphics")] *)
Definition declared : init_args :=
  mkArgs (AStr "myapp") (AStr "My Application") ANone ANone (Atom ANone)
    (Atom ANone) (Atom ANone) (Atom (AStr "Graphics")) (Atom ANone) (Atom ANone).

Definition declared_record : Shortcut :=
  mkShortcut "myapp" "My Application" "" "" [] [] "" "Graphics" [] [].

(** A package that lists two topics. *)
Definition two_topics : Env :=
  mkEnv no_files "posix" "linux"
    (mkMetadata (AStr "A sample app") ["Topic :: Education"; "Topic :: System"]
       (PyList [AStr "sample"; AStr "app"]))
    (fun l => l).

(** A record for ["myapp"] with two icon paths, neither of them on disk. *)
Definition icon_a : PurePath := PyPath.of_str "/pkg/a.png".
Definition icon_b : PurePath := PyPath.of_str "/pkg/b.png".
Definition two_icons : Shortcut :=
  mkShortcut "myapp" "App" "" "" [icon_a; icon_b] [] "" "" [] [].

(** [Shortcut("other", name="myapp")] *)
Definition other_named_myapp : init_args :=
  mkArgs (AStr "other") (AStr "myapp") ANone ANone (Atom ANone)
    (Atom ANone) (Atom ANone) (Atom ANone) (Atom ANone) (Atom ANone).

(** [Shortcut("one", name="App")] and [Shortcut("two", name="App")] *)
Definition one_app : init_args :=
  mkArgs (AStr "one") (AStr "App") ANone ANone (Atom ANone)
    (Atom ANone) (Atom ANone) (Atom ANone) (Atom ANone) (Atom ANone).
Definition two_app : init_args :=
  mkArgs (AStr "two") (AStr "App") ANone ANone (Atom ANone)
    (Atom ANone) (Atom ANone) (Atom (AStr "Office")) (Atom ANone) (Atom ANone).

End Sample.

(** What one classifier contributes: the first of its segments that is a
    category, when its first segment is [Topic]. *)
Definition classifier_pick (cf : string) : option string :=
  let segs := map PyStr.strip (PyStr.split "::" cf) in
  if bool_decide (head segs = Some "Topic")
  then List.find (fun c => existsb (String.eqb c) _FREE_DESKTOP_CATEGORIES) segs
  else None.

(** ** The command [build_shortcuts] *)

(** [ep.split('=')[0].strip()]: the script that an entry point declares. *)
Definition entry_script (ep : string) : string :=
  PyStr.strip (hd "" (PyStr.split "=" ep)).

(** What a group of entry points holds: a list of declarations, or one
    string. *)
Inductive ep_value :=
| EpList (l : list string)
| EpText (t : string).

(** [self.distribution.entry_points]: the attribute may be missing (plain
    distutils), [None] (the default of setuptools), a string in the format
    of an [.ini] file, or a dictionary from groups to declarations. *)
Inductive entry_points_attr :=
| EpAbsent
| EpNone
| EpString (t : string)
| EpDict (d : list (string * ep_value)).

(** What [self.warn] is given: a message, or the list of classifiers. *)
Inductive warning :=
| WarnStr (s : string)
| WarnList (l : list string).

Section Command.

Variable str_hash : string -> Z.
Variable _here : PurePath.

(** The [for ep in ...] loop of [run]: the first exception ends it. *)
Fixpoint run_loop (env : Env) (eps : list string) (w : world) : option exn * world :=
  match eps with
  | [] => (None, w)
  | ep :: rest =>
      match _get_metadatas str_hash _here env (entry_script ep) w with
      | (inl e, w1) => (Some e, w1)
      | (inr _, w1) => run_loop env rest w1
      end
  end.

(** The declarations of a group, as the [for] loop meets them: the
    elements of a list, or the characters of a string. *)
Definition declarations (v : ep_value) : list string :=
  match v with
  | EpList l => l
  | EpText t => map (fun c => String c EmptyString) (list_ascii_of_string t)
  end.

(** [build_shortcuts.run].  The result holds the exception that ended the
    run, if any, the registry, and the warnings in the order they were
    given.  [group in entry_points] raises on [None], is a substring test
    on a string, and a key test on a dictionary; a string cannot be
    indexed by the group. *)
Definition run (env : Env) (entry_points : entry_points_attr)
           (w : world) : option exn * world * list warning :=
  let group := "console_scripts" in
  let last := WarnList (get_classifiers (metadata env)) in
  let no_entry_points := (None, w, [WarnStr "no entry_points found"; last]) in
  match entry_points with
  | EpAbsent => no_entry_points
  | EpNone => (Some TypeError, w, [])
  | EpString t =>
      if PyStr.contains group t then (Some TypeError, w, []) else no_entry_points
  | EpDict d =>
      if existsb (fun kv => String.eqb (fst kv) group) d then
        match dict_get d (Some group) with
        | inl e => (Some e, w, [])
        | inr v =>
            match run_loop env (declarations v) w with
            | (Some e, w1) => (Some e, w1, [])
            | (None, w1) => (None, w1, [last])
            end
        end
      else no_entry_points
  end.

End Command.

(** ** What the records and the registry are expected to satisfy *)

(** The category is unset or one of the twelve. *)
Definition category_ok (r : Shortcut) : Prop :=
  _category r = "" \/ In (_category r) _FREE_DESKTOP_CATEGORIES.

(** The special argument is unset or a key of the table. *)
Definition special_arg_ok (r : Shortcut) : Prop :=
  _special_arg r = "" \/ In (_special_arg r) (map fst _LINUX_SPECIAL_ARGS).

(** Every entry is filed under the hash of the name its record has now. *)
Definition coherent (str_hash : string -> Z) (w : world) : Prop :=
  Forall (fun e => e_hash e = Shortcut_.hash str_hash (deref (heap w) (e_ref e)))
         (_instances w).

(** The names of the registered records, in the order of the entries. *)
Definition registered_names (w : world) : list string :=
  map (fun e => _name (deref (heap w) (e_ref e))) (_instances w).






(** A character that [re.split] keeps: neither white space nor a comma. *)
Definition token_char (c : ascii) : bool :=
  negb (PyStr.isspace c || Ascii.eqb c ",").

Fixpoint all_chars (p : ascii -> bool) (s : string) : bool :=
  match s with
  | EmptyString => true
  | String c s' => p c && all_chars p s'
  end.

(** What resolution may do to a record: the script, the arguments, the
    special argument and the MIME types stay, and so does every other field
    that was set, the icon apart. *)
Definition kept (r r' : Shortcut) : Prop :=
  _script r' = _script r
  /\ _arguments r' = _arguments r
  /\ _special_arg r' = _special_arg r
  /\ _mime_type r' = _mime_type r
  /\ (_name r <> "" -> _name r' = _name r)
  /\ (_generic_name r <> "" -> _generic_name r' = _generic_name r)
  /\ (_description r <> "" -> _description r' = _description r)
  /\ (_category r <> "" -> _category r' = _category r)
  /\ (_keywords r <> [] -> _keywords r' = _keywords r).

(** A character other than the sign that ends the name of an entry point. *)
Definition not_equals_sign (c : ascii) : bool := negb (Ascii.eqb c "=").

(** Two records with the same fields are the same record. *)
Ltac same_record y :=
  destruct y;
  unfold Shortcut_.with_name, Shortcut_.with_generic_name, Shortcut_.with_icon,
    Shortcut_.with_description, Shortcut_.with_category, Shortcut_.with_keywords;
  simpl in *; congruence.

(** * Properties *)

Example split_ex : PyStr.split "::" "Topic :: Multimedia :: Video"
                   = ["Topic "; " Multimedia "; " Video"].
Proof. reflexivity. Qed.

Example re_split_ex : PyStr.re_split "a, b  c ,d" = ["a"; "b"; "c"; ""; "d"].
Proof. reflexivity. Qed.

Example of_str_ex : PyPath.of_str "/pkg//data/./x.png" = mkPath "/" ["pkg"; "data"; "x.png"].
Proof. vm_compute. reflexivity. Qed.

Example suffix_ex : PyPath.suffix (PyPath.of_str "/pkg/data/x.tar.png") = ".png".
Proof. vm_compute. reflexivity. Qed.

(** ** The heap and the registry *)

Lemma deref_app_old (h l : list Shortcut) (r : nat) :
  (r < length h)%nat -> deref (h ++ l) r = deref h r.
Proof. intros Hr. unfold deref. now rewrite lookup_app_l. Qed.

Lemma deref_app_new (h : list Shortcut) (x : Shortcut) :
  deref (h ++ [x]) (length h) = x.
Proof. unfold deref. now rewrite list_lookup_middle. Qed.

Lemma deref_insert (h : list Shortcut) (r : nat) (x : Shortcut) :
  (r < length h)%nat -> deref (<[r:=x]> h) r = x.
Proof. intros Hr. unfold deref. now rewrite list_lookup_insert_eq. Qed.

Lemma set_add_elems (str_hash : string -> Z) (h : list Shortcut)
      (s : list entry) (x : nat) (e : entry) :
  In e (set_add str_hash h s x) -> In e s \/ e_ref e = x.
Proof.
  unfold set_add. destruct (existsb _ s); [auto |].
  intros [H | [<- | []]]%in_app_or; auto.
Qed.

(** An element whose name no held element carries is appended. *)
Lemma set_add_new_name (str_hash : string -> Z) (h : list Shortcut)
      (s : list entry) (x : nat) :
  Forall (fun e => e_ref e <> x /\ _name (deref h (e_ref e)) <> _name (deref h x)) s ->
  set_add str_hash h s x
  = (s ++ [mkEntry (Shortcut_.hash str_hash (deref h x)) x])%list.
Proof.
  intros Hall. unfold set_add.
  replace (existsb (entry_matches str_hash h x) s) with false; [reflexivity |].
  symmetry. apply not_true_is_false. intros (e & He & Hm)%existsb_exists.
  apply (proj1 (List.Forall_forall _ _) Hall) in He as [Href Hname].
  unfold entry_matches, Shortcut_.eq in Hm.
  apply andb_prop in Hm as [_ Hm]. apply orb_prop in Hm as [Hm | Hm].
  - apply Nat.eqb_eq in Hm. contradiction.
  - apply String.eqb_eq in Hm. congruence.
Qed.

(** An element that matches a held one leaves the set as it is. *)
Lemma set_add_held (str_hash : string -> Z) (h : list Shortcut)
      (s : list entry) (x : nat) (e : entry) :
  In e s -> entry_matches str_hash h x e = true -> set_add str_hash h s x = s.
Proof.
  intros He Hm. unfold set_add.
  replace (existsb (entry_matches str_hash h x) s) with true; [reflexivity |].
  symmetry. apply existsb_exists. eauto.
Qed.

(** ** Construction *)

(** [__init__] assigns every field, so its result does not depend on what
    the instance held before. *)
Lemma __init___overwrites (here : PurePath) (a : init_args) (r1 r2 r : Shortcut) :
  __init__ here a r1 = Normal r -> __init__ here a r2 = Normal r.
Proof.
  unfold __init__, Shortcut_.set_script, Shortcut_.set_name,
    Shortcut_.set_generic_name, Shortcut_.set_description, Shortcut_.set_icon,
    Shortcut_.set_arguments, Shortcut_.set_special_arg, Shortcut_.set_category,
    Shortcut_.set_keywords, Shortcut_.set_mime_type.
  cbn [and_then].
  destruct (match arg_icon a with PyList l => Py.to_paths l | Atom a0 => _ end) as [e | ps];
    [discriminate |].
  destruct (Shortcut_.check_icons here ps); [discriminate |]. cbn [and_then].
  destruct (Shortcut_.str_list (arg_arguments a)); [discriminate |]. cbn [and_then].
  destruct (arg_special_arg a) as [[| | | x |] |]; try discriminate;
    [| destruct (existsb _ _); [| discriminate]];
    cbn [and_then];
    (destruct (Py.in_strs _ _); destruct (arg_category a) as [[] |];
     try discriminate; cbn [and_then];
     destruct (Shortcut_.str_list (arg_keywords a)); try discriminate; cbn [and_then];
     destruct (Shortcut_.str_list (arg_mime_type a)); try discriminate;
     intros [= <-]; reflexivity).
Qed.

(** The second run of [__init__] changes nothing: a call of the class does
    what [__new__] does. *)
Lemma Shortcut_call_new (str_hash : string -> Z) (here : PurePath)
      (a : init_args) (w : world) :
  Shortcut_call str_hash here a w = __new__ str_hash here a w.
Proof.
  unfold Shortcut_call, __new__.
  destruct (__init__ here a blank) as [r | e r] eqn:Hinit; [| reflexivity].
  cbv zeta. cbn [heap _instances]. rewrite deref_app_new.
  rewrite (__init___overwrites here a blank r r Hinit). cbn [record_of].
  rewrite list_insert_id by (now apply list_lookup_middle). reflexivity.
Qed.

(** ** Platform detection *)

Lemma _get_platform_tags os sp t :
  _get_platform os sp = Some t -> In t platform_tags.
Proof.
  unfold _get_platform, platform_tags.
  repeat case_match; intros [= <-]; simpl; auto.
Qed.

Lemma _ICON_EXT_has_tag t :
  In t platform_tags -> exists exts, dict_get _ICON_EXT (Some t) = inr exts.
Proof.
  intros [<- | [<- | [<- | []]]]; simpl; eauto.
Qed.

(** C5, as the code has it: the detection is a function of [os.name] and
    [sys.platform] alone; it answers ["darwin"], ["win"] or ["linux"] on the
    identifiers its three tests recognise, and every tag it answers is a key
    of the icon-extension table; on any other identifier it answers [None]. *)
Theorem _get_platform_partial (os sp : string) :
  (forall t, _get_platform os sp = Some t ->
     In t platform_tags /\ exists exts, dict_get _ICON_EXT (Some t) = inr exts)
  /\ (_get_platform os sp = None <->
      sp <> "darwin" /\ os <> "nt"
      /\ PyStr.startswith sp "win" = false
      /\ PyStr.startswith sp "linux" = false).
Proof.
  split.
  - intros t Ht. pose proof (_get_platform_tags _ _ _ Ht) as Hin.
    split; [exact Hin | now apply _ICON_EXT_has_tag].
  - unfold _get_platform.
    destruct (String.eqb_spec sp "darwin") as [-> | Hd].
    { split; [discriminate | intros [H _]; now destruct H]. }
    destruct (String.eqb_spec os "nt") as [-> | Hn]; simpl.
    { split; [discriminate | intros (_ & H & _); now destruct H]. }
    destruct (PyStr.startswith sp "win") eqn:Hw.
    { split; [discriminate | intros (_ & _ & H & _); discriminate]. }
    destruct (PyStr.startswith sp "linux") eqn:Hl.
    { split; [discriminate | intros (_ & _ & _ & H); discriminate]. }
    split; auto.
Qed.

Lemma _get_platform_partial_witness :
  In "linux" platform_tags
  /\ exists exts, dict_get _ICON_EXT (Some "linux") = inr exts.
Proof.
  apply (proj1 (_get_platform_partial "posix" "linux") "linux").
  reflexivity.
Defined.

(** C5 as stated fails: on FreeBSD no tag comes back and the table lookup
    keyed by the answer raises. *)
Lemma _get_platform_freebsd_no_tag :
  ~ (exists t, _get_platform "posix" "freebsd13" = Some t /\ In t platform_tags)
  /\ dict_get _ICON_EXT (_get_platform "posix" "freebsd13") = inl KeyError.
Proof.
  split; [intros (t & Ht & _); discriminate | reflexivity].
Qed.

(** ** Scalar fields *)

(** C8 as stated fails: the integer 0 is stored as the empty string, while
    [str(0)] is ["0"]. *)
Lemma set_name_zero_not_str :
  _name (record_of (Shortcut_.set_name (AInt 0) blank)) = ""
  /\ Py.str (AInt 0) = "0"
  /\ _name (record_of (Shortcut_.set_name (AInt 0) blank)) <> Py.str (AInt 0).
Proof. repeat split; discriminate. Qed.

(** C8, as the code has it: each of the four setters never raises; it stores
    [str(input)] when the input is truthy and the empty string when it is
    falsy ([None], but also [''], [0] and [False]); a string input is always
    stored as it is. *)
Theorem scalar_setters_store (s : atom) (r : Shortcut) :
  let script' := _script (record_of (Shortcut_.set_script s r)) in
  let name' := _name (record_of (Shortcut_.set_name s r)) in
  let generic' := _generic_name (record_of (Shortcut_.set_generic_name s r)) in
  let description' := _description (record_of (Shortcut_.set_description s r)) in
  (Py.truthy s = true ->
     script' = Py.str s /\ name' = Py.str s
     /\ generic' = Py.str s /\ description' = Py.str s)
  /\ (Py.truthy s = false ->
     script' = "" /\ name' = "" /\ generic' = "" /\ description' = "")
  /\ (forall x, s = AStr x ->
     script' = x /\ name' = x /\ generic' = x /\ description' = x)
  /\ (s = ANone ->
     script' = "" /\ name' = "" /\ generic' = "" /\ description' = "").
Proof.
  cbn -[Py.str Py.truthy]. unfold Shortcut_.str_or_empty.
  split; [| split; [| split]].
  - intros ->. auto.
  - intros ->. auto.
  - intros x ->. simpl. destruct (String.eqb_spec x ""); subst; auto.
  - intros ->. auto.
Qed.

Lemma scalar_setters_store_witness :
  _name (record_of (Shortcut_.set_name (AInt 42) blank)) = "42"
  /\ _description (record_of (Shortcut_.set_description (AStr "") blank)) = "".
Proof.
  split.
  - apply (proj1 (scalar_setters_store (AInt 42) blank)). reflexivity.
  - apply (proj1 (proj2 (scalar_setters_store (AStr "") blank))). reflexivity.
Defined.

(** The four setters never raise. *)
Lemma scalar_setters_total (s : atom) (r : Shortcut) :
  (exists r', Shortcut_.set_script s r = Normal r')
  /\ (exists r', Shortcut_.set_name s r = Normal r')
  /\ (exists r', Shortcut_.set_generic_name s r = Normal r')
  /\ (exists r', Shortcut_.set_description s r = Normal r').
Proof. repeat split; eexists; reflexivity. Qed.

(** ** The category setter *)

Lemma in_strs_str (c : string) (l : list string) :
  In c l -> Py.in_strs (Atom (AStr c)) l = true.
Proof.
  intros H. simpl. apply existsb_exists. exists c. split; [exact H |].
  simpl. apply String.eqb_refl.
Qed.

Lemma in_strs_inv (v : pyval) (l : list string) :
  Py.in_strs v l = true -> exists c, v = Atom (AStr c) /\ In c l.
Proof.
  destruct v as [a | l']; simpl; [| discriminate].
  intros H. apply existsb_exists in H as (c & Hc & He).
  destruct a; simpl in He; try discriminate.
  apply String.eqb_eq in He. subst. eauto.
Qed.

(** C7: a value outside the twelve categories, other than [None], is refused
    with [TypeError] and the record is left as it was; a value of the set is
    stored unchanged; [None] stores the empty string. *)
Theorem set_category_validates (v : pyval) (r : Shortcut) :
  length _FREE_DESKTOP_CATEGORIES = 12%nat
  /\ (Py.in_strs v _FREE_DESKTOP_CATEGORIES = false -> v <> Atom ANone ->
      Shortcut_.set_category v r = Raised TypeError r)
  /\ (Py.in_strs v _FREE_DESKTOP_CATEGORIES = true ->
      exists c, v = Atom (AStr c)
        /\ Shortcut_.set_category v r = Normal (Shortcut_.with_category c r)
        /\ _category (Shortcut_.with_category c r) = c)
  /\ (v = Atom ANone ->
      Shortcut_.set_category v r = Normal (Shortcut_.with_category "" r)).
Proof.
  split; [reflexivity |]. split; [| split].
  - intros Hin Hnone. unfold Shortcut_.set_category. rewrite Hin.
    destruct v as [[] |]; congruence.
  - intros Hin. destruct (in_strs_inv _ _ Hin) as (c & -> & Hc).
    exists c. unfold Shortcut_.set_category. rewrite Hin. auto.
  - intros ->. reflexivity.
Qed.

Lemma set_category_validates_witness :
  Shortcut_.set_category (Atom (AStr "Games")) blank = Raised TypeError blank
  /\ (exists c, Atom (AStr "Game") = Atom (AStr c)
        /\ Shortcut_.set_category (Atom (AStr "Game")) blank
           = Normal (Shortcut_.with_category c blank)
        /\ _category (Shortcut_.with_category c blank) = c).
Proof.
  split.
  - apply (proj1 (proj2 (set_category_validates (Atom (AStr "Games")) blank)));
      [reflexivity | discriminate].
  - apply (proj1 (proj2 (proj2 (set_category_validates (Atom (AStr "Game")) blank)))).
    reflexivity.
Defined.

(** Every one of the twelve names is accepted. *)
Lemma set_category_accepts (c : string) (r : Shortcut) :
  In c _FREE_DESKTOP_CATEGORIES ->
  Shortcut_.set_category (Atom (AStr c)) r = Normal (Shortcut_.with_category c r).
Proof.
  intros H. unfold Shortcut_.set_category. now rewrite (in_strs_str _ _ H).
Qed.

(** ** Equality and hash *)

(** C9: two records are equal exactly when their names are, and equal names
    give equal hashes, whatever the other fields hold. *)
Theorem eq_iff_same_name (str_hash : string -> Z) (a b : Shortcut) :
  (Shortcut_.eq a b = true <-> _name a = _name b)
  /\ (_name a = _name b -> Shortcut_.hash str_hash a = Shortcut_.hash str_hash b).
Proof.
  unfold Shortcut_.eq, Shortcut_.hash. split.
  - rewrite String.eqb_eq. split; congruence.
  - now intros ->.
Qed.

Lemma eq_iff_same_name_witness :
  let a := mkShortcut "one" "App" "" "" [] [] "" "Game" [] [] in
  let b := mkShortcut "two" "App" "g" "d" [] ["x"] "" "Office" ["k"] [] in
  Shortcut_.eq a b = true
  /\ Shortcut_.hash (fun s => Z.of_nat (String.length s)) a
     = Shortcut_.hash (fun s => Z.of_nat (String.length s)) b.
Proof.
  intros a b. split.
  - apply (proj1 (eq_iff_same_name (fun s => Z.of_nat (String.length s)) a b)).
    reflexivity.
  - apply (proj2 (eq_iff_same_name (fun s => Z.of_nat (String.length s)) a b)).
    reflexivity.
Defined.

(** ** The icon setter *)

(** A string never equals a path, so the closing loop of the setter raises
    at the first path it meets, wherever that path points. *)
Lemma check_icons_cons (here i : PurePath) (l : list PurePath) :
  Shortcut_.check_icons here (i :: l) = Some AttributeError.
Proof. reflexivity. Qed.

Lemma set_icon_list_raises (here : PurePath) (l : list atom)
      (ps : list PurePath) (r : Shortcut) :
  Py.to_paths l = inr ps -> ps <> [] ->
  Shortcut_.set_icon here (PyList l) r
  = Raised AttributeError (Shortcut_.with_icon ps r).
Proof.
  intros Hl Hne. unfold Shortcut_.set_icon. rewrite Hl.
  destruct ps as [| p ps]; [congruence | reflexivity].
Qed.

Lemma set_icon_one_raises (here : PurePath) (a : atom) (p : PurePath) (r : Shortcut) :
  Py.truthy a = true -> Py.to_path a = inr p ->
  Shortcut_.set_icon here (Atom a) r
  = Raised AttributeError (Shortcut_.with_icon [p] r).
Proof.
  intros Ht Hp. unfold Shortcut_.set_icon. now rewrite Ht, Hp.
Qed.

(** The half of C1 that the code keeps: a path outside the base directory
    is refused.  So is every other path: the test does not look at where
    the path points. *)
Lemma set_icon_str_refused (here : PurePath) (s : string) (r : Shortcut) :
  s <> "" ->
  Shortcut_.set_icon here (Atom (AStr s)) r
  = Raised AttributeError (Shortcut_.with_icon [PyPath.of_str s] r).
Proof.
  intros Hs. apply set_icon_one_raises; [| reflexivity].
  simpl. now destruct (String.eqb_spec s "").
Qed.

(** Only the empty assignments go through. *)
Lemma set_icon_empty (here : PurePath) (r : Shortcut) :
  Shortcut_.set_icon here (Atom ANone) r = Normal (Shortcut_.with_icon [] r)
  /\ Shortcut_.set_icon here (PyList []) r = Normal (Shortcut_.with_icon [] r).
Proof. split; reflexivity. Qed.

(** C1, where the code departs from it: with the module in [/pkg], the
    icon [/pkg/data/icon.png] lies under the base directory, and still the
    setter raises [AttributeError], alone or in a list, and the constructor
    fails without registering anything. *)
Theorem set_icon_refuses_path_under_here (str_hash : string -> Z) :
  let here := PyPath.of_str "/pkg" in
  let p := PyPath.of_str "/pkg/data/icon.png" in
  let args := mkArgs (AStr "myapp") ANone ANone ANone
                (Atom (AStr "/pkg/data/icon.png")) (Atom ANone) (Atom ANone)
                (Atom ANone) (Atom ANone) (Atom ANone) in
  PyPath.under here p = true
  /\ Shortcut_.set_icon here (Atom (AStr "/pkg/data/icon.png")) blank
     = Raised AttributeError (Shortcut_.with_icon [p] blank)
  /\ Shortcut_.set_icon here (PyList [AStr "/pkg/data/icon.png"]) blank
     = Raised AttributeError (Shortcut_.with_icon [p] blank)
  /\ Shortcut_call str_hash here args empty_world = (inl AttributeError, empty_world).
Proof. repeat split. Qed.

(** ** Dropping icons that are missing *)

Lemma list_remove_length (x : PurePath) (l : list PurePath) :
  (length (list_remove x l) <= length l)%nat.
Proof.
  induction l as [| y l IH]; simpl; [lia |].
  destruct (PyPath.eqb y x); simpl; lia.
Qed.

(** The loop is over once the index has left the list, so the rounds that
    [prune_icons] allows are enough: more of them change nothing. *)
Lemma prune_loop_fuel (x : FS) (fuel : nat) :
  forall (i : nat) (l : list PurePath) (more : nat),
    (length l <= fuel + i)%nat ->
    prune_loop x (fuel + more) i l = prune_loop x fuel i l.
Proof.
  induction fuel as [| fuel IH]; intros i l more Hlen.
  - assert (l !! i = None) as Hi by (apply lookup_ge_None; simpl in Hlen; lia).
    destruct more; simpl; [reflexivity | now rewrite Hi].
  - simpl. destruct (l !! i) as [ic |] eqn:Hi; [| reflexivity].
    destruct (exists_ x ic).
    + apply IH. lia.
    + apply IH. pose proof (list_remove_length ic l). lia.
Qed.

Lemma prune_loop_all_exist (x : FS) (fuel : nat) :
  forall (i : nat) (l : list PurePath),
    Forall (fun p => exists_ x p = true) l -> prune_loop x fuel i l = l.
Proof.
  induction fuel as [| fuel IH]; intros i l Hall; simpl; [reflexivity |].
  destruct (l !! i) as [ic |] eqn:Hi; [| reflexivity].
  rewrite Forall_forall in Hall.
  rewrite (Hall ic) by (apply list_elem_of_lookup; eauto).
  apply IH. now apply Forall_forall.
Qed.

Lemma prune_icons_fuel (x : FS) (l : list PurePath) (more : nat) :
  prune_loop x (length l + more) 0 l = prune_icons x l.
Proof. apply prune_loop_fuel. lia. Qed.

(** When every path exists the list is kept as it is. *)
Lemma prune_icons_all_exist (x : FS) (l : list PurePath) :
  Forall (fun p => exists_ x p = true) l -> prune_icons x l = l.
Proof. apply prune_loop_all_exist. Qed.

(** ** Resolution of a script nobody declared *)

Lemma __init___only_script (here : PurePath) (script : string) :
  __init__ here (only_script (AStr script)) blank
  = Normal (Shortcut_.with_script script blank).
Proof.
  unfold __init__, only_script, Shortcut_.set_script, Shortcut_.str_or_empty.
  simpl. destruct (String.eqb_spec script ""); subst; reflexivity.
Qed.

(** When nothing registered runs [script], the scan ends on the record
    that resolution has just made, whatever the order of the set. *)
Lemma scan_undeclared (str_hash : string -> Z) (env : Env) (w : world)
      (script : string) (r : Shortcut) :
  wf_world w -> undeclared script w -> unordered env ->
  scan env
       (mkWorld (heap w ++ [r])
                (set_add str_hash (heap w ++ [r]) (_instances w) (length (heap w))))
       script (length (heap w))
  = length (heap w).
Proof.
  intros Hwf Hun Hord. unfold scan. simpl.
  destruct (List.find _ _) as [e |] eqn:Hfind; [| reflexivity].
  apply find_some in Hfind as [Hin Hscript].
  apply (Permutation_in _ (Hord _)) in Hin.
  apply set_add_elems in Hin as [Hin | Href]; [| exact Href].
  exfalso.
  pose proof (proj1 (List.Forall_forall _ _) Hwf e Hin) as Hlt.
  pose proof (proj1 (List.Forall_forall _ _) Hun e Hin) as Hne.
  simpl in Hlt. rewrite deref_app_old in Hscript by exact Hlt.
  apply String.eqb_eq in Hscript. contradiction.
Qed.

(** With an empty icon list and nothing globbed, the icon stays empty,
    with or without a data directory and on any platform. *)
Lemma fill_icon_no_file (here : PurePath) (env : Env) (r : Shortcut) :
  _icon r = [] ->
  glob_pattern_error (_name r ++ ".*") = None ->
  glob (fs env) (PyPath.joinpath here (PyPath.of_str "data")) (_name r ++ ".*") = [] ->
  fill_icon here env r = Normal (Shortcut_.with_icon [] r).
Proof.
  intros Hi Hp Hg. unfold fill_icon. rewrite Hi, Hp, Hg.
  destruct (is_dir _ _); reflexivity.
Qed.

Lemma fill_bare_myapp (here : PurePath) (env : Env) :
  get_description (metadata env) = AStr "A sample app" ->
  get_classifiers (metadata env) = ["Topic :: Utility"] ->
  get_keywords (metadata env) = PyList [AStr "sample"; AStr "app"] ->
  glob (fs env) (PyPath.joinpath here (PyPath.of_str "data")) "myapp.*" = [] ->
  fill here env (Shortcut_.with_script "myapp" blank)
  = Normal (mkShortcut "myapp" "myapp" "myapp" "A sample app" [] [] ""
              "Utility" ["sample"; "app"] []).
Proof.
  intros Hd Hc Hk Hg. unfold fill.
  set (r2 := mkShortcut "myapp" "myapp" "myapp" "" [] [] "" "" [] []).
  change (fill_name (Shortcut_.with_script "myapp" blank) >>> fill_generic_name)
    with (Normal r2).
  cbn [and_then].
  rewrite (fill_icon_no_file here env r2 eq_refl ltac:(vm_compute; reflexivity) Hg).
  cbn [and_then]. unfold fill_description, fill_category, fill_keywords.
  rewrite Hd, Hc, Hk. reflexivity.
Qed.

(** C2: the script ["myapp"] has no declared record, the package has the
    description ["A sample app"], the classifiers [["Topic :: Utility"]] and
    the keywords [["sample"; "app"]], and the data directory holds no file
    [myapp.*].  Resolution returns a record with name and generic name
    ["myapp"], that description, the category ["Utility"], those keywords and
    no icon. *)
Theorem resolve_undeclared_myapp (str_hash : string -> Z) (here : PurePath)
        (env : Env) (w : world) :
  wf_world w -> undeclared "myapp" w -> unordered env ->
  get_description (metadata env) = AStr "A sample app" ->
  get_classifiers (metadata env) = ["Topic :: Utility"] ->
  get_keywords (metadata env) = PyList [AStr "sample"; AStr "app"] ->
  glob (fs env) (PyPath.joinpath here (PyPath.of_str "data")) "myapp.*" = [] ->
  exists (ref : nat) (w' : world),
    _get_metadatas str_hash here env "myapp" w = (inr ref, w')
    /\ deref (heap w') ref
       = mkShortcut "myapp" "myapp" "myapp" "A sample app" [] [] ""
           "Utility" ["sample"; "app"] [].
Proof.
  intros Hwf Hun Hord Hd Hc Hk Hg.
  unfold _get_metadatas. rewrite Shortcut_call_new.
  unfold __new__. rewrite __init___only_script.
  cbv zeta. cbn [heap _instances].
  rewrite (scan_undeclared str_hash env w "myapp" _ Hwf Hun Hord).
  rewrite deref_app_new, (fill_bare_myapp here env Hd Hc Hk Hg).
  do 2 eexists. split; [reflexivity |]. cbn [heap record_of].
  apply deref_insert. rewrite length_app. simpl. lia.
Qed.

Lemma resolve_undeclared_myapp_witness :
  exists (ref : nat) (w' : world),
    _get_metadatas Sample.str_hash Sample.pkg Sample.oldest_first "myapp" empty_world
    = (inr ref, w')
    /\ deref (heap w') ref
       = mkShortcut "myapp" "myapp" "myapp" "A sample app" [] [] ""
           "Utility" ["sample"; "app"] [].
Proof.
  apply (resolve_undeclared_myapp Sample.str_hash Sample.pkg Sample.oldest_first
           empty_world).
  - constructor.
  - constructor.
  - intros l. apply Permutation_refl.
  - reflexivity.
  - reflexivity.
  - reflexivity.
  - reflexivity.
Defined.

(** ** The category inferred from the classifiers *)

Lemma first_category_find (segs : list string) (r : Shortcut) :
  first_category segs r
  = match List.find (fun c => existsb (String.eqb c) _FREE_DESKTOP_CATEGORIES) segs with
    | Some c => Normal (Shortcut_.with_category c r)
    | None => Normal r
    end.
Proof.
  induction segs as [| c segs IH]; [reflexivity |].
  cbn [first_category List.find].
  destruct (existsb (String.eqb c) _FREE_DESKTOP_CATEGORIES) eqn:Hc; [| exact IH].
  apply set_category_accepts. apply existsb_exists in Hc as (c' & Hin & He).
  apply String.eqb_eq in He. now subst.
Qed.

Lemma classifier_step_pick (cf : string) (r : Shortcut) :
  classifier_step cf r
  = match classifier_pick cf with
    | Some c => Normal (Shortcut_.with_category c r)
    | None => Normal r
    end.
Proof.
  unfold classifier_step, classifier_pick.
  destruct (bool_decide _); [apply first_category_find | reflexivity].
Qed.

(** What the outer loop computes: every classifier with a pick overwrites
    the category left by the ones before it. *)
Lemma each_classifier_fold (cfs : list string) :
  forall r : Shortcut,
    each_classifier cfs r
    = Normal (fold_left (fun r cf => match classifier_pick cf with
                                     | Some c => Shortcut_.with_category c r
                                     | None => r
                                     end) cfs r).
Proof.
  induction cfs as [| cf cfs IH]; intros r; [reflexivity |].
  cbn [each_classifier fold_left]. rewrite classifier_step_pick.
  destruct (classifier_pick cf); cbn [and_then]; apply IH.
Qed.

(** The last classifier that has a pick decides. *)
Lemma each_classifier_last_pick (cfs : list string) (cf c : string) (r : Shortcut) :
  classifier_pick cf = Some c ->
  exists r', each_classifier (cfs ++ [cf]) r = Normal r' /\ _category r' = c.
Proof.
  intros Hp. rewrite each_classifier_fold. eexists. split; [reflexivity |].
  rewrite fold_left_app. cbn [fold_left]. now rewrite Hp.
Qed.

(** C3, where the code departs from it: with the classifiers
    [Topic :: Education] and [Topic :: System], in that order, the first
    category met is [Education], and resolution of an undeclared script
    returns the category [System]: the second classifier has changed it. *)
Theorem resolve_category_overwritten (str_hash : string -> Z) (here : PurePath) :
  classifier_pick "Topic :: Education" = Some "Education"
  /\ exists w',
       _get_metadatas str_hash here Sample.two_topics "myapp" empty_world
       = (inr 0%nat, w')
       /\ _category (deref (heap w') 0) = "System".
Proof.
  split; [vm_compute; reflexivity |].
  eexists. split; vm_compute; reflexivity.
Qed.

(** ** Resolution of a declared script *)

(** The registry after the one declaration of the scenario. *)
Lemma Shortcut_call_declared (str_hash : string -> Z) (here : PurePath) :
  Shortcut_call str_hash here Sample.declared empty_world
  = (inr 0%nat,
     mkWorld [Sample.declared_record] [mkEntry (str_hash "My Application") 0]).
Proof. reflexivity. Qed.

(** Resolution first registers its own bare record beside the declared one:
    the two names differ, so the set takes it. *)
Lemma bare_is_registered (str_hash : string -> Z) (here : PurePath) :
  snd (Shortcut_call str_hash here (only_script (AStr "myapp"))
         (mkWorld [Sample.declared_record] [mkEntry (str_hash "My Application") 0]))
  = mkWorld [Sample.declared_record; Shortcut_.with_script "myapp" blank]
            [mkEntry (str_hash "My Application") 0; mkEntry (str_hash "") 1].
Proof.
  rewrite Shortcut_call_new.
  unfold __new__. rewrite __init___only_script. cbv zeta. cbn [snd heap _instances].
  rewrite set_add_new_name; [reflexivity |].
  repeat constructor; simpl; congruence.
Qed.

(** When the loop meets the declared record first, it is the one resolved. *)
Lemma resolve_declared_met_first (str_hash : string -> Z) (here : PurePath) :
  exists w',
    _get_metadatas str_hash here Sample.oldest_first "myapp"
      (snd (Shortcut_call str_hash here Sample.declared empty_world))
    = (inr 0%nat, w')
    /\ deref (heap w') 0
       = mkShortcut "myapp" "My Application" "My Application" "A sample app"
           [] [] "" "Graphics" ["sample"; "app"] [].
Proof.
  rewrite Shortcut_call_declared. cbn [snd].
  pose proof (bare_is_registered str_hash here) as Hbare.
  unfold _get_metadatas.
  destruct (Shortcut_call str_hash here (only_script (AStr "myapp")) _)
    as [[e | bare] w1] eqn:Hnew; cbn [snd] in Hbare; subst w1.
  - rewrite Shortcut_call_new in Hnew.
    unfold __new__ in Hnew. rewrite __init___only_script in Hnew. discriminate.
  - eexists. split; vm_compute; reflexivity.
Qed.

(** C4, where the code departs from it: a record for ["myapp"] is declared
    with the name ["My Application"] and the category ["Graphics"], and the
    loop over the set meets the newest entry first.  The newest entry is the
    bare record that resolution itself has just registered; it runs
    ["myapp"] too, so it is the one resolved, and the record returned has
    the name ["myapp"] and the category ["Utility"].  The declared record is
    left as it was. *)
Theorem resolve_declared_met_last (str_hash : string -> Z) (here : PurePath) :
  let w := snd (Shortcut_call str_hash here Sample.declared empty_world) in
  deref (heap w) 0 = Sample.declared_record
  /\ map e_ref (_instances w) = [0%nat]
  /\ exists w',
       _get_metadatas str_hash here Sample.newest_first "myapp" w = (inr 1%nat, w')
       /\ deref (heap w') 1
          = mkShortcut "myapp" "myapp" "myapp" "A sample app" [] [] ""
              "Utility" ["sample"; "app"] []
       /\ deref (heap w') 0 = Sample.declared_record.
Proof.
  rewrite Shortcut_call_declared. cbn [snd]. split; [reflexivity |]. split; [reflexivity |].
  pose proof (bare_is_registered str_hash here) as Hbare.
  unfold _get_metadatas.
  destruct (Shortcut_call str_hash here (only_script (AStr "myapp")) _)
    as [[e | bare] w1] eqn:Hnew; cbn [snd] in Hbare; subst w1.
  - rewrite Shortcut_call_new in Hnew.
    unfold __new__ in Hnew. rewrite __init___only_script in Hnew. discriminate.
  - rewrite Shortcut_call_new in Hnew.
    unfold __new__ in Hnew. rewrite __init___only_script in Hnew.
    injection Hnew as <-.
    eexists. repeat split; vm_compute; reflexivity.
Qed.

(** ** Icons set before resolution *)

(** On the list of the scenario, where neither file exists, the loop
    removes the first path and never looks at the second. *)
Lemma fill_icon_two_missing (here : PurePath) :
  fill_icon here Sample.oldest_first Sample.two_icons
  = Normal (Shortcut_.with_icon [Sample.icon_b] Sample.two_icons).
Proof. reflexivity. Qed.

(** C6, where the code departs from it: a registered record for ["myapp"]
    holds two icon paths, neither of which exists.  After resolution its
    icon list still holds the second one. *)
Theorem resolve_keeps_missing_icon (str_hash : string -> Z) (here : PurePath) :
  let w := mkWorld [Sample.two_icons] [mkEntry (str_hash "App") 0] in
  exists_ Sample.no_files Sample.icon_a = false
  /\ exists_ Sample.no_files Sample.icon_b = false
  /\ exists w',
       _get_metadatas str_hash here Sample.oldest_first "myapp" w = (inr 0%nat, w')
       /\ _icon (deref (heap w') 0) = [Sample.icon_b].
Proof.
  cbv zeta. split; [reflexivity |]. split; [reflexivity |].
  unfold _get_metadatas. rewrite Shortcut_call_new.
  unfold __new__. rewrite __init___only_script.
  cbv zeta. cbn [heap _instances].
  rewrite set_add_new_name by (repeat constructor; simpl; congruence).
  eexists. split; vm_compute; reflexivity.
Qed.

(** ** One registered record per name *)

(** C10 as stated fails once a registered record has been renamed.
    Resolution of ["myapp"] on an empty registry registers a bare record
    under the hash of the empty name and then names it ["myapp"]; a record
    made afterwards with the name ["myapp"] hashes differently, is not
    recognised, and is added: the registry then holds two records of that
    name. *)
Lemma renamed_record_registered_twice :
  let w := snd (_get_metadatas Sample.str_hash Sample.pkg Sample.oldest_first
                  "myapp" empty_world) in
  let made := Shortcut_call Sample.str_hash Sample.pkg Sample.other_named_myapp w in
  map e_ref (_instances w) = [0%nat]
  /\ _name (deref (heap w) 0) = "myapp"
  /\ fst made = inr 1%nat
  /\ _name (deref (heap (snd made)) 1) = "myapp"
  /\ map e_ref (_instances (snd made)) = [0%nat; 1%nat]
  /\ _instances (snd made) <> _instances w.
Proof.
  vm_compute. repeat split; discriminate.
Qed.

(** C10, as the code has it: when a registered record still carries the
    name it was registered under, making a second record of that name
    leaves the registry as it was: the entries and the records they hold
    are the same, the new record is not among them, and no later scan of
    the registry finds it. *)
Theorem same_name_not_added (str_hash : string -> Z) (here : PurePath)
        (a : init_args) (w : world) (e : entry) (r : Shortcut) :
  wf_world w ->
  In e (_instances w) ->
  e_hash e = Shortcut_.hash str_hash (deref (heap w) (e_ref e)) ->
  __init__ here a blank = Normal r ->
  _name r = _name (deref (heap w) (e_ref e)) ->
  exists (new : nat) (w' : world),
    Shortcut_call str_hash here a w = (inr new, w')
    /\ _instances w' = _instances w
    /\ (forall e', In e' (_instances w') ->
          deref (heap w') (e_ref e') = deref (heap w) (e_ref e'))
    /\ ~ In new (map e_ref (_instances w'))
    /\ (forall env script d,
          unordered env -> d <> new -> scan env w' script d <> new).
Proof.
  intros Hwf He Hhash Hinit Hname.
  pose proof (proj1 (List.Forall_forall _ _) Hwf) as Hlt.
  assert (forall e', In e' (_instances w) -> e_ref e' <> length (heap w)) as Hfresh
    by (intros e' He'; specialize (Hlt e' He'); simpl in Hlt; lia).
  rewrite Shortcut_call_new. unfold __new__. rewrite Hinit. cbv zeta.
  rewrite (set_add_held str_hash _ _ _ e He).
  2:{ unfold entry_matches, Shortcut_.eq, Shortcut_.hash.
      rewrite deref_app_new, deref_app_old by (apply Hlt, He).
      rewrite Hhash. unfold Shortcut_.hash. rewrite Hname.
      rewrite Z.eqb_refl, String.eqb_refl. apply orb_true_r. }
  do 2 eexists. split; [reflexivity |]. cbn [heap _instances].
  split; [reflexivity |]. split; [| split].
  - intros e' He'. apply deref_app_old, Hlt, He'.
  - intros (e' & Href & He')%in_map_iff. now apply (Hfresh e').
  - intros env script d Hord Hd. unfold scan. cbn [heap _instances].
    destruct (List.find _ _) as [e' |] eqn:Hfind; [| exact Hd].
    apply find_some in Hfind as [Hin _].
    apply (Permutation_in _ (Hord _)) in Hin. now apply Hfresh.
Qed.

Lemma same_name_not_added_witness :
  let w := snd (Shortcut_call Sample.str_hash Sample.pkg Sample.one_app empty_world) in
  exists (new : nat) (w' : world),
    Shortcut_call Sample.str_hash Sample.pkg Sample.two_app w = (inr new, w')
    /\ _instances w' = _instances w
    /\ (forall e', In e' (_instances w') ->
          deref (heap w') (e_ref e') = deref (heap w) (e_ref e'))
    /\ ~ In new (map e_ref (_instances w'))
    /\ (forall env script d,
          unordered env -> d <> new -> scan env w' script d <> new).
Proof.
  apply (same_name_not_added Sample.str_hash Sample.pkg Sample.two_app
           (snd (Shortcut_call Sample.str_hash Sample.pkg Sample.one_app empty_world))
           (mkEntry 3 0)
           (mkShortcut "two" "App" "" "" [] [] "" "Office" [] [])).
  - repeat constructor.
  - left. reflexivity.
  - reflexivity.
  - reflexivity.
  - reflexivity.
Defined.

(** * Further properties of the source *)

(** ** Splitting a string into tokens *)

Lemma rev_acc_rev_acc (t a b : string) :
  PyStr.rev_acc (PyStr.rev_acc t a) b = PyStr.rev_acc a (t ++ b).
Proof.
  revert a b. induction t as [| c t IH]; intros a b; simpl; [reflexivity |].
  now rewrite IH.
Qed.

Lemma append_empty (t : string) : t ++ "" = t.
Proof.
  induction t as [| c t IH]; [reflexivity |].
  change (String c (t ++ "") = String c t). now rewrite IH.
Qed.

Lemma srev_rev_acc (t : string) : PyStr.srev (PyStr.rev_acc t "") = t.
Proof.
  unfold PyStr.srev. rewrite rev_acc_rev_acc. simpl. apply append_empty.
Qed.

Lemma all_chars_rev_acc (p : ascii -> bool) (s acc : string) :
  all_chars p s = true -> all_chars p acc = true ->
  all_chars p (PyStr.rev_acc s acc) = true.
Proof.
  revert acc. induction s as [| c s IH]; intros acc Hs Hacc; simpl in *; [exact Hacc |].
  apply andb_prop in Hs as [Hc Hs]. apply IH; [exact Hs |]. simpl. now rewrite Hc.
Qed.

Lemma token_char_inv (c : ascii) :
  token_char c = true -> PyStr.isspace c = false /\ Ascii.eqb c "," = false.
Proof.
  unfold token_char. intros H. apply negb_true_iff in H.
  now apply orb_false_iff in H.
Qed.

Lemma re_split_go_tokens (s : string) :
  forall (cur : string) (insep : bool) (t : string),
    all_chars token_char cur = true ->
    In t (PyStr.re_split_go s cur insep) ->
    all_chars token_char t = true.
Proof.
  induction s as [| c s IH]; intros cur insep t Hcur Hin.
  - destruct Hin as [<- | []]. now apply all_chars_rev_acc.
  - simpl in Hin. destruct insep.
    + destruct (PyStr.isspace c) eqn:Hsp; [now apply (IH "" true) |].
      destruct (Ascii.eqb c ",") eqn:Hco.
      * destruct Hin as [<- | Hin]; [reflexivity | now apply (IH "" true)].
      * apply (IH (String c "") false); [| exact Hin].
        simpl. unfold token_char. now rewrite Hsp, Hco.
    + destruct (PyStr.isspace c || Ascii.eqb c ",") eqn:Hsep.
      * destruct Hin as [<- | Hin]; [now apply all_chars_rev_acc |].
        now apply (IH "" true).
      * apply (IH (String c cur) false); [| exact Hin].
        simpl. unfold token_char. now rewrite Hsep.
Qed.

(** X1: no token that [re.split] cuts out of a string holds white space or
    a comma. *)
Theorem re_split_tokens_clean (s t : string) :
  In t (PyStr.re_split s) -> all_chars token_char t = true.
Proof. now apply re_split_go_tokens. Qed.

Lemma re_split_tokens_clean_witness :
  all_chars token_char "b" = true.
Proof.
  apply (re_split_tokens_clean "a, b  c ,d" "b"). vm_compute. tauto.
Defined.

Lemma re_split_go_cons (s : string) :
  forall (cur : string) (insep : bool), PyStr.re_split_go s cur insep <> [].
Proof.
  induction s as [| c s IH]; intros cur insep; simpl; [discriminate |].
  destruct insep.
  - destruct (PyStr.isspace c); [apply IH |].
    destruct (Ascii.eqb c ","); [discriminate | apply IH].
  - destruct (_ || _); [discriminate | apply IH].
Qed.

(** X2: a string given for [keywords] always leaves at least one keyword,
    the empty string included, which leaves the one keyword [""]; so
    resolution, which only fills an empty list, never replaces keywords that
    were given as a string. *)
Theorem keywords_string_never_backfilled (s : string) (r : Shortcut) (env : Env) :
  exists l,
    Shortcut_.set_keywords (Atom (AStr s)) r = Normal (Shortcut_.with_keywords l r)
    /\ l <> []
    /\ (s = "" -> l = [""])
    /\ fill_keywords env (Shortcut_.with_keywords l r)
       = Normal (Shortcut_.with_keywords l r).
Proof.
  exists (PyStr.re_split s). split; [reflexivity |].
  pose proof (re_split_go_cons s "" false) as Hne. fold (PyStr.re_split s) in Hne.
  split; [exact Hne |]. split; [now intros -> |].
  unfold fill_keywords. simpl. destruct (PyStr.re_split s); [contradiction | reflexivity].
Qed.

(** In a token the scan only accumulates. *)
Lemma re_split_go_token (t rest cur : string) :
  all_chars token_char t = true ->
  PyStr.re_split_go (t ++ rest) cur false
  = PyStr.re_split_go rest (PyStr.rev_acc t cur) false.
Proof.
  revert cur. induction t as [| c t IH]; intros cur Ht; simpl in *; [reflexivity |].
  apply andb_prop in Ht as [Hc Ht].
  unfold token_char in Hc. apply negb_true_iff in Hc. rewrite Hc. now apply IH.
Qed.

Lemma join_cons_char (sep : string) (c : ascii) (t : string) (l : list string) :
  PyStr.join sep (String c t :: l) = String c (PyStr.join sep (t :: l)).
Proof. destruct l; reflexivity. Qed.

Lemma re_split_go_join (sep : string) (l : list string) :
  sep = ", " \/ sep = "," \/ sep = " " ->
  Forall (fun t => all_chars token_char t = true /\ t <> "") l ->
  forall (t cur : string),
    all_chars token_char t = true ->
    PyStr.re_split_go (PyStr.join sep (t :: l)) cur false
    = PyStr.srev (PyStr.rev_acc t cur) :: l.
Proof.
  intros Hsep Hall. induction Hall as [| t2 l [Ht2 Hne] Hall IH]; intros t cur Ht.
  - simpl. rewrite <- (append_empty t) at 1.
    rewrite re_split_go_token by exact Ht. reflexivity.
  - change (PyStr.join sep (t :: t2 :: l))
      with (t ++ sep ++ PyStr.join sep (t2 :: l)).
    rewrite re_split_go_token by exact Ht.
    destruct t2 as [| c t2]; [contradiction |].
    rewrite join_cons_char. simpl in Ht2. apply andb_prop in Ht2 as [Hc Ht2].
    destruct (token_char_inv c Hc) as [Hsp Hco].
    destruct Hsep as [-> | [-> | ->]]; cbv [String.append]; simpl;
      rewrite Hsp, Hco; f_equal;
      (etransitivity; [exact (IH t2 (String c "") Ht2) |]);
      unfold PyStr.srev; rewrite rev_acc_rev_acc; simpl; now rewrite append_empty.
Qed.

(** X3: tokens that hold neither white space nor commas, and of which only
    the first may be empty, come back from [re.split] when they are joined
    with [", "], [","] or [" "]. *)
Theorem re_split_join (sep : string) (t : string) (l : list string) :
  sep = ", " \/ sep = "," \/ sep = " " ->
  all_chars token_char t = true ->
  Forall (fun t => all_chars token_char t = true /\ t <> "") l ->
  PyStr.re_split (PyStr.join sep (t :: l)) = t :: l.
Proof.
  intros Hsep Ht Hall. unfold PyStr.re_split.
  rewrite (re_split_go_join sep l Hsep Hall t "" Ht). now rewrite srev_rev_acc.
Qed.

Lemma re_split_join_witness :
  PyStr.re_split (PyStr.join ", " ["--fast"; "-v"; "input.txt"])
  = ["--fast"; "-v"; "input.txt"].
Proof.
  apply (re_split_join ", " "--fast" ["-v"; "input.txt"]).
  - left. reflexivity.
  - reflexivity.
  - repeat constructor; discriminate.
Defined.

(** ** The special argument *)

(** X4: the setter of [special_arg] stores each of the four keys of the
    table unchanged and the empty string for [None]; every other value,
    the field codes themselves included, is refused with [TypeError] and
    the record is left as it was. *)
Theorem set_special_arg_validates (v : pyval) (r : Shortcut) :
  (forall k, In k (map fst _LINUX_SPECIAL_ARGS) ->
     Shortcut_.set_special_arg (Atom (AStr k)) r
     = Normal (Shortcut_.with_special_arg k r))
  /\ Shortcut_.set_special_arg (Atom ANone) r
     = Normal (Shortcut_.with_special_arg "" r)
  /\ (v <> Atom ANone ->
      (forall k, In k (map fst _LINUX_SPECIAL_ARGS) -> v <> Atom (AStr k)) ->
      Shortcut_.set_special_arg v r = Raised TypeError r).
Proof.
  split; [| split].
  - intros k Hk. simpl in Hk.
    destruct Hk as [<- | [<- | [<- | [<- | []]]]]; reflexivity.
  - reflexivity.
  - intros Hnone Hkeys. destruct v as [[| b | z | x | p] | l]; try reflexivity.
    + congruence.
    + unfold Shortcut_.set_special_arg.
      destruct (existsb _ _) eqn:Hex; [| reflexivity].
      apply existsb_exists in Hex as ([k c] & Hin & He).
      apply String.eqb_eq in He. simpl in He. subst x.
      exfalso. apply (Hkeys k); [| reflexivity].
      apply in_map_iff. exists (k, c). auto.
Qed.

Lemma set_special_arg_validates_witness :
  Shortcut_.set_special_arg (Atom (AStr "%f")) blank = Raised TypeError blank.
Proof.
  apply (proj2 (proj2 (set_special_arg_validates (Atom (AStr "%f")) blank))).
  - discriminate.
  - intros k Hk. simpl in Hk.
    destruct Hk as [<- | [<- | [<- | [<- | []]]]]; discriminate.
Defined.

(** ** Icons found in the data directory *)

Lemma rfind_dot_drop (n : string) (i : nat) :
  PyStr.rfind_dot n = Some i -> exists s', PyStr.drop i n = String "." s'.
Proof.
  revert i. induction n as [| c n IH]; intros i; simpl; [discriminate |].
  destruct (PyStr.rfind_dot n) as [j |].
  - intros [= <-]. simpl. now apply IH.
  - destruct (Ascii.eqb_spec c "."); [| discriminate].
    intros [= <-]. subst. simpl. eauto.
Qed.

(** A suffix is empty or begins with its dot. *)
Lemma suffix_dot (p : PurePath) :
  PyPath.suffix p = "" \/ exists s', PyPath.suffix p = String "." s'.
Proof.
  unfold PyPath.suffix.
  destruct (PyStr.rfind_dot (PyPath.name p)) as [i |] eqn:Hi; [| now left].
  destruct (_ && _); [| now left].
  right. now apply rfind_dot_drop.
Qed.

(** The extensions of the table are written without a dot, so no suffix is
    among them. *)
Lemma _ICON_EXT_never_suffix (plat : option string) (exts : list string)
      (p : PurePath) :
  dict_get _ICON_EXT plat = inr exts ->
  existsb (String.eqb (PyPath.suffix p)) exts = false.
Proof.
  intros Hget.
  assert (In exts (map snd _ICON_EXT)) as Hin.
  { destruct plat as [t |]; [| discriminate].
    unfold _ICON_EXT in *. cbn [dict_get] in Hget.
    destruct (String.eqb "linux" t); [injection Hget as <-; simpl; auto |].
    destruct (String.eqb "win" t); [injection Hget as <-; simpl; auto |].
    destruct (String.eqb "darwin" t); [injection Hget as <-; simpl; auto |].
    discriminate. }
  unfold _ICON_EXT in Hin. cbn [map snd] in Hin.
  destruct (suffix_dot p) as [Hs | [s' Hs]]; rewrite Hs;
    destruct Hin as [<- | [<- | [<- | []]]]; reflexivity.
Qed.

Lemma select_icons_selects_nothing (plat : option string)
      (icons l : list PurePath) :
  select_icons plat icons = inr l -> l = [].
Proof.
  revert l. induction icons as [| ic icons IH]; intros l; cbn [select_icons].
  - now intros [= <-].
  - destruct (dict_get _ICON_EXT plat) as [e | exts] eqn:Hget; [discriminate |].
    destruct (select_icons plat icons) as [e | l']; [discriminate |].
    rewrite (_ICON_EXT_never_suffix plat exts ic Hget).
    intros [= <-]. now apply IH.
Qed.

Lemma select_icons_raises (plat : option string) (icons : list PurePath) (e : exn) :
  select_icons plat icons = inl e ->
  e = KeyError /\ icons <> [] /\ forall t, plat = Some t -> ~ In t platform_tags.
Proof.
  induction icons as [| ic icons IH]; cbn [select_icons]; [discriminate |].
  destruct (dict_get _ICON_EXT plat) as [e' | exts] eqn:Hget.
  - intros [= <-]. split; [| split; [discriminate |]].
    + destruct plat as [t |]; [| now inversion Hget].
      unfold _ICON_EXT in Hget. cbn [dict_get] in Hget.
      destruct (String.eqb "linux" t); [discriminate |].
      destruct (String.eqb "win" t); [discriminate |].
      destruct (String.eqb "darwin" t); [discriminate |].
      now inversion Hget.
    + intros t -> Ht. destruct (_ICON_EXT_has_tag t Ht) as [x Hx]. congruence.
  - destruct (select_icons plat icons) as [e' | l'] eqn:Hsel; [| discriminate].
    intros [= <-]. destruct (IH eq_refl) as (He & _ & Hp).
    split; [exact He |]. split; [discriminate | exact Hp].
Qed.

Lemma glob_pattern_error_cases (pattern : string) (e : exn) :
  glob_pattern_error pattern = Some e ->
  e = NotImplementedError \/ e = ValueError.
Proof.
  unfold glob_pattern_error. destruct (negb _); [intros [= <-]; now left |].
  destruct (existsb _ _); [intros [= <-]; now right | discriminate].
Qed.

(** The outcomes of the icon step on a record without icon. *)
Lemma fill_icon_empty_cases (here : PurePath) (env : Env) (r : Shortcut) :
  _icon r = [] ->
  fill_icon here env r = Normal (Shortcut_.with_icon [] r)
  \/ (fill_icon here env r = Raised KeyError r
      /\ _get_platform (os_name env) (sys_platform env) = None
      /\ is_dir (fs env) (PyPath.joinpath here (PyPath.of_str "data")) = true
      /\ glob (fs env) (PyPath.joinpath here (PyPath.of_str "data"))
              (_name r ++ ".*") <> [])
  \/ (exists e, fill_icon here env r = Raised e r
      /\ glob_pattern_error (_name r ++ ".*") = Some e
      /\ (e = NotImplementedError \/ e = ValueError)
      /\ is_dir (fs env) (PyPath.joinpath here (PyPath.of_str "data")) = true).
Proof.
  intros Hi. unfold fill_icon. rewrite Hi.
  destruct (is_dir _ _) eqn:Hdir; [| now left].
  destruct (glob_pattern_error _) as [e |] eqn:Hpat.
  { right. right. exists e. repeat split; auto.
    now apply (glob_pattern_error_cases _ _ Hpat). }
  destruct (select_icons _ _) as [e | l] eqn:Hsel.
  - right. left. apply select_icons_raises in Hsel as (-> & Hne & Hp).
    split; [reflexivity |]. split; [| split; [reflexivity | exact Hne]].
    destruct (_get_platform _ _) as [t |] eqn:Hplat; [| reflexivity].
    exfalso. apply (Hp t eq_refl). now apply (_get_platform_tags _ _ _ Hplat).
  - left. now rewrite (select_icons_selects_nothing _ _ _ Hsel).
Qed.



(** A name that begins with a slash, or that holds two stars, is enough
    for the glob to refuse. *)
Example glob_pattern_error_abs :
  glob_pattern_error ("/abs" ++ ".*") = Some NotImplementedError
  /\ glob_pattern_error ("a**b" ++ ".*") = Some ValueError
  /\ glob_pattern_error ("myapp" ++ ".*") = None.
Proof. vm_compute. auto. Qed.

(** ** Icons that were set: what the pruning loop keeps *)

Lemma PyPath_eqb_eq (p q : PurePath) : PyPath.eqb p q = true -> p = q.
Proof.
  unfold PyPath.eqb. intros [Hr Hp]%andb_prop.
  apply String.eqb_eq in Hr. apply bool_decide_eq_true in Hp.
  destruct p, q; simpl in *; congruence.
Qed.

Lemma list_remove_filter (x : FS) (ic : PurePath) (l : list PurePath) :
  exists_ x ic = false ->
  List.filter (exists_ x) (list_remove ic l) = List.filter (exists_ x) l.
Proof.
  intros Hic. induction l as [| y l IH]; simpl; [reflexivity |].
  destruct (PyPath.eqb y ic) eqn:Hy.
  - apply PyPath_eqb_eq in Hy. subst y. now rewrite Hic.
  - simpl. now rewrite IH.
Qed.

Lemma list_remove_sublist (ic : PurePath) (l : list PurePath) :
  sublist (list_remove ic l) l.
Proof.
  induction l as [| y l IH]; simpl; [constructor |].
  destruct (PyPath.eqb y ic); [now constructor | now constructor].
Qed.

Lemma prune_loop_keeps (x : FS) (fuel : nat) :
  forall (i : nat) (l : list PurePath),
    List.filter (exists_ x) (prune_loop x fuel i l) = List.filter (exists_ x) l
    /\ sublist (prune_loop x fuel i l) l.
Proof.
  induction fuel as [| fuel IH]; intros i l; simpl; [split; reflexivity |].
  destruct (l !! i) as [ic |]; [| split; reflexivity].
  destruct (exists_ x ic) eqn:Hic; [apply IH |].
  destruct (IH (S i) (list_remove ic l)) as [Hf Hs]. split.
  - now rewrite Hf, list_remove_filter.
  - etrans; [exact Hs | apply list_remove_sublist].
Qed.

(** X6: the loop that drops missing icons never loses a path that
    exists: the existing paths of the list are all there afterwards, in
    their order, and what is left is a sublist of what was there. *)
Theorem prune_icons_keeps_existing (x : FS) (l : list PurePath) :
  List.filter (exists_ x) (prune_icons x l) = List.filter (exists_ x) l
  /\ sublist (prune_icons x l) l.
Proof. apply prune_loop_keeps. Qed.

(** ** What construction guarantees *)

Lemma check_icons_none (here : PurePath) (ps : list PurePath) :
  Shortcut_.check_icons here ps = None -> ps = [].
Proof. destruct ps; [reflexivity | discriminate]. Qed.

(** X7: a record whose [__init__] went through has a category that is
    empty or one of the twelve, a special argument that is empty or a key
    of the table, and no icon at all: the icon setter lets no path pass. *)
Theorem __init___invariants (here : PurePath) (a : init_args) (r0 r : Shortcut) :
  __init__ here a r0 = Normal r ->
  category_ok r /\ special_arg_ok r /\ _icon r = [].
Proof.
  unfold __init__, Shortcut_.set_script, Shortcut_.set_name,
    Shortcut_.set_generic_name, Shortcut_.set_description, Shortcut_.set_icon,
    Shortcut_.set_arguments, Shortcut_.set_special_arg, Shortcut_.set_category,
    Shortcut_.set_keywords, Shortcut_.set_mime_type.
  cbn [and_then].
  destruct (match arg_icon a with PyList l => Py.to_paths l | Atom a0 => _ end) as [e | ps];
    [discriminate |].
  destruct (Shortcut_.check_icons here ps) eqn:Hck; [discriminate |].
  apply check_icons_none in Hck. subst ps. cbn [and_then].
  destruct (Shortcut_.str_list (arg_arguments a)); [discriminate |]. cbn [and_then].
  assert (forall x, existsb (fun kv : string * string => String.eqb x (fst kv))
                      _LINUX_SPECIAL_ARGS = true ->
                    In x (map fst _LINUX_SPECIAL_ARGS)) as Hkey.
  { intros x ([k c] & Hin & He)%existsb_exists. apply String.eqb_eq in He.
    subst x. apply in_map_iff. exists (k, c). auto. }
  destruct (arg_special_arg a) as [[| | | x |] |]; try discriminate;
    [| destruct (existsb _ _) eqn:Hex; [apply Hkey in Hex | discriminate]];
    cbn [and_then];
    (destruct (Py.in_strs _ _) eqn:Hin;
     [apply in_strs_inv in Hin as (c & Hc & Hin); rewrite Hc |
      destruct (arg_category a) as [[] |]; try discriminate];
     cbn [and_then];
     destruct (Shortcut_.str_list (arg_keywords a)); try discriminate; cbn [and_then];
     destruct (Shortcut_.str_list (arg_mime_type a)); try discriminate;
     intros [= <-]; unfold category_ok, special_arg_ok; cbn;
     repeat split; auto).
Qed.

Lemma __init___invariants_witness :
  category_ok Sample.declared_record
  /\ special_arg_ok Sample.declared_record
  /\ _icon Sample.declared_record = [].
Proof.
  apply (__init___invariants Sample.pkg Sample.declared blank Sample.declared_record).
  reflexivity.
Defined.

(** X8: a call of the class that raises leaves the heap and the registry
    exactly as they were: no record is registered half made. *)
Theorem Shortcut_call_raise_unchanged (str_hash : string -> Z) (here : PurePath)
        (a : init_args) (w w' : world) (e : exn) :
  Shortcut_call str_hash here a w = (inl e, w') -> w' = w.
Proof.
  rewrite Shortcut_call_new. unfold __new__.
  destruct (__init__ here a blank); [discriminate | now intros [= _ <-]].
Qed.

Lemma Shortcut_call_raise_unchanged_witness :
  let bad := mkArgs (AStr "myapp") ANone ANone ANone (Atom ANone) (Atom ANone)
               (Atom ANone) (Atom (AStr "Games")) (Atom ANone) (Atom ANone) in
  fst (Shortcut_call Sample.str_hash Sample.pkg bad empty_world) = inl TypeError
  /\ snd (Shortcut_call Sample.str_hash Sample.pkg bad empty_world) = empty_world.
Proof.
  intros bad. split; [reflexivity |].
  apply (Shortcut_call_raise_unchanged Sample.str_hash Sample.pkg bad empty_world
           (snd (Shortcut_call Sample.str_hash Sample.pkg bad empty_world)) TypeError).
  reflexivity.
Defined.

(** ** The registry under construction *)

Lemma registered_names_app (h : list Shortcut) (l : list Shortcut) (s : list entry) :
  Forall (fun e => (e_ref e < length h)%nat) s ->
  map (fun e => _name (deref (h ++ l) (e_ref e))) s
  = map (fun e => _name (deref h (e_ref e))) s.
Proof.
  intros Hwf. apply map_ext_in. intros e He.
  now rewrite deref_app_old by (apply (proj1 (List.Forall_forall _ _) Hwf e He)).
Qed.

(** X9: as long as every registered record is filed under the hash of its
    present name, construction keeps the registry a set of names: the
    entries stay allocated, stay filed under their names, and no two
    registered records bear the same name. *)
Theorem Shortcut_call_keeps_names_distinct (str_hash : string -> Z)
        (here : PurePath) (a : init_args) (w w' : world) (ref : nat) :
  wf_world w -> coherent str_hash w -> NoDup (registered_names w) ->
  Shortcut_call str_hash here a w = (inr ref, w') ->
  wf_world w' /\ coherent str_hash w' /\ NoDup (registered_names w').
Proof.
  intros Hwf Hco Hnd. rewrite Shortcut_call_new. unfold __new__.
  destruct (__init__ here a blank) as [r | e r]; [| discriminate].
  cbv zeta. intros [= <- <-].
  pose proof (proj1 (List.Forall_forall _ _) Hwf) as Hlt.
  pose proof (proj1 (List.Forall_forall _ _) Hco) as Hh.
  assert (forall e, In e (_instances w) ->
            deref (heap w ++ [r]) (e_ref e) = deref (heap w) (e_ref e)) as Hold
    by (intros e He; apply deref_app_old, Hlt, He).
  unfold wf_world, coherent, registered_names. cbn [heap _instances].
  unfold set_add. destruct (existsb _ _) eqn:Hex.
  - split; [| split].
    + apply List.Forall_forall. intros e He. rewrite length_app.
      specialize (Hlt e He). simpl in *. lia.
    + apply List.Forall_forall. intros e He. rewrite Hold by exact He. now apply Hh.
    + rewrite registered_names_app by exact Hwf. exact Hnd.
  - assert (forall e, In e (_instances w) -> _name (deref (heap w) (e_ref e)) <> _name r)
      as Hfresh.
    { intros e He Hname.
      assert (existsb (entry_matches str_hash (heap w ++ [r]) (length (heap w)))
                (_instances w) = true) as Htrue; [| congruence].
      apply existsb_exists. exists e. split; [exact He |].
      unfold entry_matches, Shortcut_.eq, Shortcut_.hash.
      rewrite deref_app_new, Hold by exact He.
      rewrite (Hh e He). unfold Shortcut_.hash. rewrite Hname.
      rewrite Z.eqb_refl, String.eqb_refl. apply orb_true_r. }
    split; [| split].
    + apply List.Forall_forall. intros e [He | [<- | []]]%in_app_or; rewrite length_app.
      * specialize (Hlt e He). simpl in *. lia.
      * simpl. lia.
    + apply List.Forall_forall. intros e [He | [<- | []]]%in_app_or.
      * rewrite Hold by exact He. now apply Hh.
      * reflexivity.
    + rewrite map_app. cbn [map e_ref]. rewrite deref_app_new.
      rewrite registered_names_app by exact Hwf.
      apply NoDup_app. split; [| split].
      * exact Hnd.
      * intros n Hn Hr. apply list_elem_of_In in Hn. apply list_elem_of_In in Hr.
        destruct Hr as [<- | []]. apply in_map_iff in Hn as (e & Hname & He).
        now apply (Hfresh e He).
      * apply NoDup_singleton.
Qed.

Lemma Shortcut_call_keeps_names_distinct_witness :
  let w := snd (Shortcut_call Sample.str_hash Sample.pkg Sample.one_app empty_world) in
  let w' := snd (Shortcut_call Sample.str_hash Sample.pkg Sample.declared w) in
  wf_world w' /\ coherent Sample.str_hash w' /\ NoDup (registered_names w').
Proof.
  intros w w'.
  apply (Shortcut_call_keeps_names_distinct Sample.str_hash Sample.pkg
           Sample.declared w w' 1%nat).
  - repeat constructor.
  - repeat constructor.
  - apply NoDup_singleton.
  - reflexivity.
Defined.

(** ** What resolution leaves alone *)

Lemma kept_refl (r : Shortcut) : kept r r.
Proof. unfold kept. tauto. Qed.

Lemma kept_trans (a b c : Shortcut) : kept a b -> kept b c -> kept a c.
Proof.
  unfold kept.
  intros (H1 & H2 & H3 & H4 & H5 & H6 & H7 & H8 & H9)
         (K1 & K2 & K3 & K4 & K5 & K6 & K7 & K8 & K9).
  repeat split; try congruence.
  - intros H. rewrite K5; [now apply H5 | now rewrite H5].
  - intros H. rewrite K6; [now apply H6 | now rewrite H6].
  - intros H. rewrite K7; [now apply H7 | now rewrite H7].
  - intros H. rewrite K8; [now apply H8 | now rewrite H8].
  - intros H. rewrite K9; [now apply H9 | now rewrite H9].
Qed.

(** A property of records that every step keeps is kept by a chain. *)
Lemma and_then_record (P : Shortcut -> Prop) (o : outcome) (k : Shortcut -> outcome) :
  P (record_of o) -> (forall r, P r -> P (record_of (k r))) ->
  P (record_of (o >>> k)).
Proof. destruct o as [r | e r]; simpl; auto. Qed.

Lemma and_then_kept (r : Shortcut) (o : outcome) (k : Shortcut -> outcome) :
  kept r (record_of o) -> (forall r', kept r' (record_of (k r'))) ->
  kept r (record_of (o >>> k)).
Proof.
  intros Ho Hk. apply (and_then_record (kept r)); [exact Ho |].
  intros r' Hr'. exact (kept_trans _ _ _ Hr' (Hk r')).
Qed.

Lemma fill_name_kept (r : Shortcut) : kept r (record_of (fill_name r)).
Proof.
  unfold fill_name. destruct (String.eqb_spec (_name r) "") as [Hn | Hn];
    [| apply kept_refl].
  unfold kept. simpl. repeat split; auto. intros H. contradiction.
Qed.

Lemma fill_generic_name_kept (r : Shortcut) :
  kept r (record_of (fill_generic_name r)).
Proof.
  unfold fill_generic_name.
  destruct (String.eqb_spec (_generic_name r) "") as [Hn | Hn]; [| apply kept_refl].
  unfold kept. simpl. repeat split; auto. intros H. contradiction.
Qed.

(** The icon setter touches the icon list and nothing else. *)
Lemma set_icon_record (here : PurePath) (v : pyval) (r : Shortcut) :
  exists ps, record_of (Shortcut_.set_icon here v r) = Shortcut_.with_icon ps r.
Proof.
  assert (r = Shortcut_.with_icon (_icon r) r) as Hr by (now destruct r).
  unfold Shortcut_.set_icon.
  destruct (match v with PyList l => Py.to_paths l | Atom a => _ end) as [e | ps].
  - exists (_icon r). exact Hr.
  - exists ps. now destruct (Shortcut_.check_icons here ps).
Qed.

Lemma fill_icon_record (here : PurePath) (env : Env) (r : Shortcut) :
  exists ps, record_of (fill_icon here env r) = Shortcut_.with_icon ps r.
Proof.
  assert (r = Shortcut_.with_icon (_icon r) r) as Hr by (now destruct r).
  unfold fill_icon. destruct (_icon r) as [| p l] eqn:Hi.
  - destruct (is_dir _ _); [| apply set_icon_record].
    destruct (glob_pattern_error _); [exists []; exact Hr |].
    destruct (select_icons _ _); [| apply set_icon_record].
    exists []. exact Hr.
  - eexists. reflexivity.
Qed.

Lemma fill_icon_kept (here : PurePath) (env : Env) (r : Shortcut) :
  kept r (record_of (fill_icon here env r)).
Proof.
  destruct (fill_icon_record here env r) as [ps ->].
  unfold kept. simpl. tauto.
Qed.

Lemma fill_description_kept (env : Env) (r : Shortcut) :
  kept r (record_of (fill_description env r)).
Proof.
  unfold fill_description.
  destruct (String.eqb_spec (_description r) "") as [Hn | Hn]; [| apply kept_refl].
  unfold kept. simpl. repeat split; auto. intros H. contradiction.
Qed.

(** The loop over the classifiers changes the category and nothing else,
    and the category it leaves is the one it found or one of the twelve. *)
Lemma classifier_pick_member (cf c : string) :
  classifier_pick cf = Some c -> In c _FREE_DESKTOP_CATEGORIES.
Proof.
  unfold classifier_pick. destruct (bool_decide _); [| discriminate].
  intros [_ (c' & Hin & He)%existsb_exists]%find_some.
  apply String.eqb_eq in He. now subst.
Qed.

Lemma classifiers_fold_record (cfs : list string) :
  forall r : Shortcut,
    exists c,
      fold_left (fun r cf => match classifier_pick cf with
                             | Some c => Shortcut_.with_category c r
                             | None => r
                             end) cfs r
      = Shortcut_.with_category c r
      /\ (c = _category r \/ In c _FREE_DESKTOP_CATEGORIES).
Proof.
  induction cfs as [| cf cfs IH]; intros r; cbn [fold_left].
  - exists (_category r). split; [now destruct r | now left].
  - destruct (classifier_pick cf) as [c' |] eqn:Hp; [| apply IH].
    destruct (IH (Shortcut_.with_category c' r)) as (c & -> & Hc).
    exists c. split; [reflexivity |].
    destruct Hc as [-> | Hc]; [| now right].
    right. simpl. now apply (classifier_pick_member cf).
Qed.

Lemma fill_category_record (env : Env) (r : Shortcut) :
  exists c,
    fill_category env r = Normal (Shortcut_.with_category c r)
    /\ (c = _category r \/ (_category r = "" /\ In c _FREE_DESKTOP_CATEGORIES)).
Proof.
  unfold fill_category. destruct (String.eqb_spec (_category r) "") as [Hc | Hc].
  - rewrite each_classifier_fold.
    destruct (classifiers_fold_record (get_classifiers (metadata env)) r)
      as (c & -> & Hcat).
    exists c. split; [reflexivity |]. destruct Hcat; auto.
  - exists (_category r). split; [now destruct r | now left].
Qed.

Lemma fill_category_kept (env : Env) (r : Shortcut) :
  kept r (record_of (fill_category env r)).
Proof.
  destruct (fill_category_record env r) as (c & -> & Hc).
  unfold kept. simpl. repeat split; auto.
  intros Hne. destruct Hc as [-> | [He _]]; [reflexivity | contradiction].
Qed.

Lemma fill_keywords_kept (env : Env) (r : Shortcut) :
  kept r (record_of (fill_keywords env r)).
Proof.
  unfold fill_keywords. destruct (_keywords r) eqn:Hk; [| apply kept_refl].
  unfold Shortcut_.set_keywords.
  destruct (Shortcut_.str_list _); [apply kept_refl |].
  unfold kept. simpl. repeat split; auto. intros H. contradiction.
Qed.

Lemma fill_kept (here : PurePath) (env : Env) (r : Shortcut) :
  kept r (record_of (fill here env r)).
Proof.
  unfold fill.
  repeat apply and_then_kept;
    auto using fill_name_kept, fill_generic_name_kept, fill_icon_kept,
      fill_description_kept, fill_category_kept, fill_keywords_kept.
Qed.

(** X10: whether it ends well or raises, the filling pass of resolution
    never changes the script, the arguments, the special argument or the
    MIME types of a record, and never changes a name, generic name,
    description, category or keyword list that was set. *)
Theorem fill_keeps_what_was_set (here : PurePath) (env : Env) (r : Shortcut) :
  _script (record_of (fill here env r)) = _script r
  /\ _arguments (record_of (fill here env r)) = _arguments r
  /\ _special_arg (record_of (fill here env r)) = _special_arg r
  /\ _mime_type (record_of (fill here env r)) = _mime_type r
  /\ (_name r <> "" -> _name (record_of (fill here env r)) = _name r)
  /\ (_generic_name r <> "" ->
      _generic_name (record_of (fill here env r)) = _generic_name r)
  /\ (_description r <> "" ->
      _description (record_of (fill here env r)) = _description r)
  /\ (_category r <> "" -> _category (record_of (fill here env r)) = _category r)
  /\ (_keywords r <> [] -> _keywords (record_of (fill here env r)) = _keywords r).
Proof. exact (fill_kept here env r). Qed.

Lemma fill_keeps_what_was_set_witness :
  _name (record_of (fill Sample.pkg Sample.oldest_first Sample.declared_record))
  = "My Application"
  /\ _category (record_of (fill Sample.pkg Sample.oldest_first Sample.declared_record))
     = "Graphics".
Proof.
  pose proof (fill_keeps_what_was_set Sample.pkg Sample.oldest_first
                Sample.declared_record) as (_ & _ & _ & _ & Hn & _ & _ & Hc & _).
  split; [apply Hn | apply Hc]; discriminate.
Defined.

(** ** The invariants through resolution *)

Lemma category_ok_with_other (r r' : Shortcut) :
  _category r' = _category r -> category_ok r -> category_ok r'.
Proof. unfold category_ok. now intros ->. Qed.

Lemma fill_category_ok (here : PurePath) (env : Env) (r : Shortcut) :
  category_ok r -> category_ok (record_of (fill here env r)).
Proof.
  unfold fill. intros Hok.
  apply (and_then_record category_ok).
  apply (and_then_record category_ok).
  apply (and_then_record category_ok).
  apply (and_then_record category_ok).
  apply (and_then_record category_ok).
  - unfold fill_name. destruct (String.eqb _ _); exact Hok.
  - intros r' H. unfold fill_generic_name. destruct (String.eqb _ _); exact H.
  - intros r' H. destruct (fill_icon_record here env r') as [ps ->]. exact H.
  - intros r' H. unfold fill_description. destruct (String.eqb _ _); exact H.
  - intros r' H. destruct (fill_category_record env r') as (c & -> & Hc).
    unfold category_ok in *. simpl.
    destruct Hc as [-> | [_ Hc]]; [exact H | now right].
  - intros r' H. unfold fill_keywords. destruct (_keywords r'); [| exact H].
    unfold Shortcut_.set_keywords. destruct (Shortcut_.str_list _); exact H.
Qed.

(** X11: resolution keeps the two enumerations: a record whose category is
    empty or one of the twelve, and whose special argument is empty or a
    key of the table, is still such a record after the filling pass,
    however that pass ends. *)
Theorem fill_keeps_enumerations (here : PurePath) (env : Env) (r : Shortcut) :
  category_ok r -> special_arg_ok r ->
  category_ok (record_of (fill here env r))
  /\ special_arg_ok (record_of (fill here env r)).
Proof.
  intros Hc Hs. split; [now apply fill_category_ok |].
  destruct (fill_kept here env r) as (_ & _ & Hsp & _).
  unfold special_arg_ok. now rewrite Hsp.
Qed.

Lemma fill_keeps_enumerations_witness :
  category_ok (record_of (fill Sample.pkg Sample.two_topics
                            (Shortcut_.with_script "myapp" blank)))
  /\ special_arg_ok (record_of (fill Sample.pkg Sample.two_topics
                                  (Shortcut_.with_script "myapp" blank))).
Proof.
  apply (fill_keeps_enumerations Sample.pkg Sample.two_topics
           (Shortcut_.with_script "myapp" blank)).
  - left. reflexivity.
  - left. reflexivity.
Defined.

(** ** How resolution ends *)

Lemma str_or_empty_str (s : string) : Shortcut_.str_or_empty (AStr s) = s.
Proof.
  unfold Shortcut_.str_or_empty. simpl.
  now destruct (String.eqb_spec s "") as [-> |].
Qed.

Lemma fill_name_result (r : Shortcut) :
  exists r1, fill_name r = Normal r1
    /\ _script r1 = _script r
    /\ (_script r <> "" -> _name r1 <> "").
Proof.
  unfold fill_name. destruct (String.eqb_spec (_name r) "") as [Hn | Hn].
  - eexists. split; [reflexivity |]. simpl. now rewrite str_or_empty_str.
  - eauto.
Qed.

Lemma fill_generic_name_result (r : Shortcut) :
  exists r1, fill_generic_name r = Normal r1
    /\ _name r1 = _name r
    /\ (_name r <> "" -> _generic_name r1 <> "").
Proof.
  unfold fill_generic_name.
  destruct (String.eqb_spec (_generic_name r) "") as [Hn | Hn].
  - eexists. split; [reflexivity |]. simpl. now rewrite str_or_empty_str.
  - eauto.
Qed.






Lemma Shortcut_call_only_script (str_hash : string -> Z) (here : PurePath)
      (script : string) (w : world) :
  Shortcut_call str_hash here (only_script (AStr script)) w
  = (inr (length (heap w)),
     mkWorld (heap w ++ [Shortcut_.with_script script blank])
       (set_add str_hash (heap w ++ [Shortcut_.with_script script blank])
          (_instances w) (length (heap w)))).
Proof.
  rewrite Shortcut_call_new. unfold __new__. now rewrite __init___only_script.
Qed.

Lemma scan_cases (env : Env) (w : world) (script : string) (d : nat) :
  unordered env ->
  scan env w script d = d
  \/ (In (scan env w script d) (map e_ref (_instances w))
      /\ _script (deref (heap w) (scan env w script d)) = script).
Proof.
  intros Hord. unfold scan.
  destruct (List.find _ _) as [e |] eqn:Hfind; [| now left].
  right. apply find_some in Hfind as [Hin Hscript].
  apply (Permutation_in _ (Hord _)) in Hin. apply String.eqb_eq in Hscript.
  split; [now apply in_map | exact Hscript].
Qed.








(** ** What resolution does to the registry and to the other records *)

Lemma set_add_prefix (str_hash : string -> Z) (h : list Shortcut)
      (s : list entry) (x : nat) :
  s `prefix_of` set_add str_hash h s x
  /\ (length (set_add str_hash h s x) <= S (length s))%nat.
Proof.
  unfold set_add. destruct (existsb _ s).
  - split; [reflexivity | lia].
  - split; [now apply prefix_app_r | rewrite length_app; simpl; lia].
Qed.

Lemma resolution_frame (str_hash : string -> Z) (here : PurePath)
      (env : Env) (script : string) (w w' : world) (res : exn + nat) :
  wf_world w ->
  _get_metadatas str_hash here env script w = (res, w') ->
  wf_world w'
  /\ length (heap w') = S (length (heap w))
  /\ _instances w `prefix_of` _instances w'
  /\ (length (_instances w') <= S (length (_instances w)))%nat
  /\ exists s,
       (forall ref, res = inr ref -> ref = s)
       /\ forall r, (r < length (heap w))%nat -> r <> s ->
            deref (heap w') r = deref (heap w) r.
Proof.
  intros Hwf. unfold _get_metadatas. rewrite Shortcut_call_only_script.
  cbv zeta. cbn [heap _instances].
  set (bare := Shortcut_.with_script script blank).
  set (h1 := (heap w ++ [bare])%list).
  set (reg1 := set_add str_hash h1 (_instances w) (length (heap w))).
  set (s := scan env (mkWorld h1 reg1) script (length (heap w))).
  set (o := fill here env (deref h1 s)).
  intros Hres.
  assert (w' = mkWorld (<[s := record_of o]> h1) reg1
          /\ forall ref, res = inr ref -> ref = s) as [-> Hs].
  { destruct o; injection Hres as <- <-;
      (split; [reflexivity | intros ref H; congruence]). }
  clear Hres. cbn [heap _instances].
  assert (length h1 = S (length (heap w))) as Hlen
    by (unfold h1; rewrite length_app; simpl; lia).
  destruct (set_add_prefix str_hash h1 (_instances w) (length (heap w)))
    as [Hpre Hle].
  split; [| split; [| split; [| split]]].
  - apply List.Forall_forall. intros e He. cbn [heap _instances] in He |- *.
    rewrite length_insert, Hlen.
    apply set_add_elems in He as [He | ->]; [| lia].
    pose proof (proj1 (List.Forall_forall _ _) Hwf e He) as Hlt. simpl in Hlt. lia.
  - now rewrite length_insert.
  - exact Hpre.
  - exact Hle.
  - exists s. split; [exact Hs |]. intros r Hr Hne. unfold deref.
    rewrite list_lookup_insert_ne by congruence.
    unfold h1. now rewrite lookup_app_l.
Qed.

(** X13: resolution allocates one instance, adds at most one entry at the
    end of the registry and removes none, keeps every entry an allocated
    instance, and changes at most one record that was there before: the
    one it returns. *)
Theorem _get_metadatas_frame (str_hash : string -> Z) (here : PurePath)
        (env : Env) (script : string) (w w' : world) (res : exn + nat) :
  wf_world w ->
  _get_metadatas str_hash here env script w = (res, w') ->
  wf_world w'
  /\ length (heap w') = S (length (heap w))
  /\ _instances w `prefix_of` _instances w'
  /\ (length (_instances w') <= S (length (_instances w)))%nat
  /\ exists s,
       (forall ref, res = inr ref -> ref = s)
       /\ forall r, (r < length (heap w))%nat -> r <> s ->
            deref (heap w') r = deref (heap w) r.
Proof. apply resolution_frame. Qed.

Lemma _get_metadatas_frame_witness :
  let w := snd (Shortcut_call Sample.str_hash Sample.pkg Sample.one_app empty_world) in
  let run := _get_metadatas Sample.str_hash Sample.pkg Sample.oldest_first "myapp" w in
  wf_world (snd run)
  /\ length (heap (snd run)) = S (length (heap w))
  /\ _instances w `prefix_of` _instances (snd run)
  /\ (length (_instances (snd run)) <= S (length (_instances w)))%nat
  /\ exists s,
       (forall ref, fst run = inr ref -> ref = s)
       /\ forall r, (r < length (heap w))%nat -> r <> s ->
            deref (heap (snd run)) r = deref (heap w) r.
Proof.
  intros w run.
  apply (_get_metadatas_frame Sample.str_hash Sample.pkg Sample.oldest_first
           "myapp" w (snd run) (fst run)).
  - repeat constructor.
  - vm_compute. reflexivity.
Defined.

(** ** The record that resolution returns *)

Lemma fill_result_names (here : PurePath) (env : Env) (r r' : Shortcut) :
  fill here env r = Normal r' ->
  _script r' = _script r
  /\ (_script r <> "" -> _name r' <> "" /\ _generic_name r' <> "").
Proof.
  intros Hf. split.
  - pose proof (fill_kept here env r) as (Hs & _). now rewrite Hf in Hs.
  - intros Hscript. unfold fill in Hf.
    destruct (fill_name_result r) as (r1 & H1 & _ & Hn1). rewrite H1 in Hf.
    cbn [and_then] in Hf.
    destruct (fill_generic_name_result r1) as (r2 & H2 & Hn2 & Hg2).
    rewrite H2 in Hf. cbn [and_then] in Hf.
    assert (kept r2 (record_of (fill_icon here env r2 >>> fill_description env
                                >>> fill_category env >>> fill_keywords env))) as Hk
      by (repeat apply and_then_kept;
          auto using fill_icon_kept, fill_description_kept, fill_category_kept,
            fill_keywords_kept).
    rewrite Hf in Hk. cbn [record_of] in Hk.
    destruct Hk as (_ & _ & _ & _ & Kn & Kg & _).
    specialize (Hn1 Hscript). specialize (Hg2 Hn1). rewrite <- Hn2 in Hn1.
    rewrite (Kn Hn1), (Kg Hg2). auto.
Qed.

Lemma resolution_result (str_hash : string -> Z) (here : PurePath)
      (env : Env) (script : string) (w w' : world) (ref : nat) :
  wf_world w -> unordered env ->
  _get_metadatas str_hash here env script w = (inr ref, w') ->
  (In ref (map e_ref (_instances w)) \/ ref = length (heap w))
  /\ _script (deref (heap w') ref) = script
  /\ (script <> "" ->
      _name (deref (heap w') ref) <> ""
      /\ _generic_name (deref (heap w') ref) <> "").
Proof.
  intros Hwf Hord. unfold _get_metadatas. rewrite Shortcut_call_only_script.
  cbv zeta. cbn [heap _instances].
  set (bare := Shortcut_.with_script script blank).
  set (h1 := (heap w ++ [bare])%list).
  set (reg1 := set_add str_hash h1 (_instances w) (length (heap w))).
  set (s := scan env (mkWorld h1 reg1) script (length (heap w))).
  destruct (fill here env (deref h1 s)) as [r' | e r'] eqn:Hf; [| discriminate].
  intros [= <- <-]. cbn [heap record_of].
  assert (length h1 = S (length (heap w))) as Hlen
    by (unfold h1; rewrite length_app; simpl; lia).
  assert ((In s (map e_ref (_instances w)) \/ s = length (heap w))
          /\ _script (deref h1 s) = script) as [Hs Hscript].
  { destruct (scan_cases env (mkWorld h1 reg1) script (length (heap w)) Hord)
      as [Hd | [Hin Hsc]]; fold s in Hd || fold s in Hin, Hsc.
    - split; [now right |]. rewrite Hd. unfold h1. now rewrite deref_app_new.
    - split; [| exact Hsc]. cbn [_instances] in Hin.
      apply in_map_iff in Hin as (e & <- & He).
      apply set_add_elems in He as [He | He]; [left; now apply in_map | now right]. }
  assert (s < length h1)%nat as Hlt.
  { destruct Hs as [(e & <- & He)%in_map_iff | ->]; [| lia].
    pose proof (proj1 (List.Forall_forall _ _) Hwf e He) as H. simpl in H. lia. }
  rewrite deref_insert by exact Hlt.
  destruct (fill_result_names here env _ r' Hf) as [H1 H2].
  rewrite Hscript in H1, H2. auto.
Qed.

(** X14: the record that resolution returns is one that was registered
    or the one it has just made; it runs the script that was asked for,
    and unless that script is the empty string its name and its generic
    name are set. *)
Theorem _get_metadatas_result (str_hash : string -> Z) (here : PurePath)
        (env : Env) (script : string) (w w' : world) (ref : nat) :
  wf_world w -> unordered env ->
  _get_metadatas str_hash here env script w = (inr ref, w') ->
  (In ref (map e_ref (_instances w)) \/ ref = length (heap w))
  /\ _script (deref (heap w') ref) = script
  /\ (script <> "" ->
      _name (deref (heap w') ref) <> ""
      /\ _generic_name (deref (heap w') ref) <> "").
Proof. apply resolution_result. Qed.

Lemma _get_metadatas_result_witness :
  let w := snd (Shortcut_call Sample.str_hash Sample.pkg Sample.declared empty_world) in
  let run := _get_metadatas Sample.str_hash Sample.pkg Sample.newest_first "myapp" w in
  (In 1%nat (map e_ref (_instances w)) \/ 1%nat = length (heap w))
  /\ _script (deref (heap (snd run)) 1) = "myapp"
  /\ ("myapp" <> "" ->
      _name (deref (heap (snd run)) 1) <> ""
      /\ _generic_name (deref (heap (snd run)) 1) <> "").
Proof.
  intros w run.
  apply (_get_metadatas_result Sample.str_hash Sample.pkg Sample.newest_first
           "myapp" w (snd run) 1%nat).
  - repeat constructor.
  - intros l. apply Permutation_sym, Permutation_rev.
  - vm_compute. reflexivity.
Defined.

(** ** Resolving twice *)

(** Each step, run on a record that agrees with its own result on the
    fields the step reads, changes nothing. *)
Lemma fill_name_settled (x x1 y : Shortcut) :
  fill_name x = Normal x1 ->
  _name y = _name x1 -> _script y = _script x1 ->
  fill_name y = Normal y.
Proof.
  unfold fill_name. intros Hx Hn Hs.
  destruct (String.eqb_spec (_name y) "") as [Hy | Hy]; [| reflexivity].
  unfold Shortcut_.set_name. rewrite str_or_empty_str. f_equal.
  assert (_script y = "") as Hsy.
  { destruct (String.eqb_spec (_name x) "") as [Hx0 | Hx0].
    - injection Hx as <-. simpl in Hn, Hs. rewrite str_or_empty_str in Hn. congruence.
    - injection Hx as <-. congruence. }
  same_record y.
Qed.

Lemma fill_generic_name_settled (x x1 y : Shortcut) :
  fill_generic_name x = Normal x1 ->
  _generic_name y = _generic_name x1 -> _name y = _name x1 ->
  fill_generic_name y = Normal y.
Proof.
  unfold fill_generic_name. intros Hx Hg Hn.
  destruct (String.eqb_spec (_generic_name y) "") as [Hy | Hy]; [| reflexivity].
  unfold Shortcut_.set_generic_name. rewrite str_or_empty_str. f_equal.
  assert (_name y = "") as Hny.
  { destruct (String.eqb_spec (_generic_name x) "") as [Hx0 | Hx0].
    - injection Hx as <-. simpl in Hg, Hn. rewrite str_or_empty_str in Hg. congruence.
    - injection Hx as <-. congruence. }
  same_record y.
Qed.

Lemma fill_icon_settled (here : PurePath) (env : Env) (x x1 y : Shortcut) :
  fill_icon here env x = Normal x1 ->
  _icon x = [] -> _icon y = [] -> _name y = _name x ->
  fill_icon here env y = Normal y.
Proof.
  intros Hx Hix Hiy Hn.
  assert (Shortcut_.with_icon [] y = y) as Hy by (same_record y).
  unfold fill_icon in *. rewrite Hix in Hx. rewrite Hiy, Hn.
  destruct (is_dir _ _);
    [| change (Normal (Shortcut_.with_icon [] y) = Normal y); now rewrite Hy].
  destruct (glob_pattern_error _); [discriminate |].
  destruct (select_icons _ _) as [e | l] eqn:Hsel; [discriminate |].
  rewrite (select_icons_selects_nothing _ _ _ Hsel).
  change (Normal (Shortcut_.with_icon [] y) = Normal y). now rewrite Hy.
Qed.

Lemma fill_description_settled (env : Env) (x x1 y : Shortcut) :
  fill_description env x = Normal x1 ->
  _description y = _description x1 ->
  fill_description env y = Normal y.
Proof.
  unfold fill_description. intros Hx Hd.
  destruct (String.eqb_spec (_description y) "") as [Hy | Hy]; [| reflexivity].
  unfold Shortcut_.set_description. f_equal.
  assert (Shortcut_.str_or_empty (get_description (metadata env)) = "") as ->.
  { destruct (String.eqb_spec (_description x) "") as [Hx0 | Hx0].
    - injection Hx as <-. simpl in Hd. congruence.
    - injection Hx as <-. congruence. }
  same_record y.
Qed.

Lemma category_nonempty (c : string) :
  In c _FREE_DESKTOP_CATEGORIES -> c <> "".
Proof.
  simpl. intros H.
  repeat (destruct H as [<- | H]; [discriminate |]). destruct H.
Qed.

(** When the loop leaves the empty category empty, no classifier had a
    pick, and the loop leaves any record as it is. *)
Lemma classifiers_fold_none (cfs : list string) :
  forall r : Shortcut,
    _category (fold_left (fun r cf => match classifier_pick cf with
                                      | Some c => Shortcut_.with_category c r
                                      | None => r
                                      end) cfs r) = "" ->
    forall y : Shortcut,
      fold_left (fun r cf => match classifier_pick cf with
                             | Some c => Shortcut_.with_category c r
                             | None => r
                             end) cfs y = y.
Proof.
  induction cfs as [| cf cfs IH]; intros r Hr y; cbn [fold_left] in *; [reflexivity |].
  destruct (classifier_pick cf) as [c |] eqn:Hp; [| now apply (IH r)].
  exfalso.
  destruct (classifiers_fold_record cfs (Shortcut_.with_category c r))
    as (c' & Heq & Hc').
  rewrite Heq in Hr. simpl in Hr. subst c'.
  destruct Hc' as [Hc' | Hc'].
  - simpl in Hc'. symmetry in Hc'.
    now apply (category_nonempty c (classifier_pick_member cf c Hp)).
  - now apply (category_nonempty "" Hc').
Qed.

Lemma fill_category_settled (env : Env) (x x1 y : Shortcut) :
  fill_category env x = Normal x1 ->
  _category y = _category x1 ->
  fill_category env y = Normal y.
Proof.
  unfold fill_category. intros Hx Hc.
  destruct (String.eqb_spec (_category y) "") as [Hy | Hy]; [| reflexivity].
  rewrite each_classifier_fold. f_equal.
  destruct (String.eqb_spec (_category x) "") as [Hx0 | Hx0].
  - rewrite each_classifier_fold in Hx. injection Hx as <-.
    apply (classifiers_fold_none _ x). congruence.
  - injection Hx as <-. congruence.
Qed.

Lemma fill_keywords_settled (env : Env) (x x1 y : Shortcut) :
  fill_keywords env x = Normal x1 ->
  _keywords y = _keywords x1 ->
  fill_keywords env y = Normal y.
Proof.
  unfold fill_keywords, Shortcut_.set_keywords. intros Hx Hk.
  destruct (_keywords y) as [| k ks] eqn:Hy; [| reflexivity].
  assert (Shortcut_.with_keywords [] y = y) as Hyy
    by (same_record y).
  destruct (_keywords x) as [| k ks] eqn:Hx0.
  - destruct (Shortcut_.str_list _) as [e | l]; [discriminate |].
    injection Hx as <-. simpl in Hk. subst l. now rewrite Hyy.
  - injection Hx as <-. congruence.
Qed.

Lemma fill_twice (here : PurePath) (env : Env) (r r' : Shortcut) :
  _icon r = [] ->
  fill here env r = Normal r' ->
  fill here env r' = Normal r'.
Proof.
  intros Hi Hf. unfold fill in Hf.
  destruct (fill_name r) as [r1 | e1 r1] eqn:H1; [| discriminate].
  cbn [and_then] in Hf.
  destruct (fill_generic_name r1) as [r2 | e2 r2] eqn:H2; [| discriminate].
  cbn [and_then] in Hf.
  destruct (fill_icon here env r2) as [r3 | e3 r3] eqn:H3; [| discriminate].
  cbn [and_then] in Hf.
  destruct (fill_description env r3) as [r4 | e4 r4] eqn:H4; [| discriminate].
  cbn [and_then] in Hf.
  destruct (fill_category env r4) as [r5 | e5 r5] eqn:H5; [| discriminate].
  cbn [and_then] in Hf.
  pose proof (fill_name_kept r) as K1. rewrite H1 in K1.
  pose proof (fill_generic_name_kept r1) as K2. rewrite H2 in K2.
  destruct (fill_icon_record here env r2) as [ps3 E3]. rewrite H3 in E3.
  pose proof (fill_description_kept env r3) as K4. rewrite H4 in K4.
  destruct (fill_category_record env r4) as (c5 & E5 & _). rewrite H5 in E5.
  injection E5 as E5.
  pose proof (fill_keywords_kept env r5) as K6. rewrite Hf in K6.
  cbn [record_of] in *.
  assert (_icon r1 = _icon r /\ _generic_name r1 = _generic_name r
          /\ _description r1 = _description r /\ _category r1 = _category r
          /\ _keywords r1 = _keywords r) as (I1 & G1 & D1 & C1 & W1).
  { unfold fill_name in H1. destruct (String.eqb _ _); injection H1 as <-; auto. }
  assert (_icon r2 = _icon r1 /\ _name r2 = _name r1) as (I2 & N2).
  { unfold fill_generic_name in H2.
    destruct (String.eqb _ _); injection H2 as <-; auto. }
  assert (_generic_name r2 = _generic_name r3 /\ _name r2 = _name r3
          /\ _script r2 = _script r3) as (G3 & N3 & S3)
    by (rewrite E3; auto).
  assert (_generic_name r4 = _generic_name r3 /\ _name r4 = _name r3
          /\ _icon r4 = _icon r3) as (G4 & N4 & I4).
  { unfold fill_description in H4.
    destruct (String.eqb _ _); injection H4 as <-; auto. }
  assert (_generic_name r5 = _generic_name r4 /\ _name r5 = _name r4
          /\ _icon r5 = _icon r4 /\ _description r5 = _description r4
          /\ _script r5 = _script r4) as (G5 & N5 & I5 & D5 & S5)
    by (rewrite E5; auto).
  assert (_generic_name r' = _generic_name r5 /\ _name r' = _name r5
          /\ _icon r' = _icon r5 /\ _description r' = _description r5
          /\ _category r' = _category r5) as (G6 & N6 & I6 & D6 & C6).
  { unfold fill_keywords, Shortcut_.set_keywords in Hf.
    destruct (_keywords r5); [| injection Hf as <-; auto].
    destruct (Shortcut_.str_list _); [discriminate |]. injection Hf as <-. auto. }
  destruct K2 as (S2 & _). destruct K4 as (S4 & _). destruct K6 as (S6 & _).
  assert (_icon r3 = []) as I3.
  { assert (_icon r2 = []) as I2' by congruence.
    destruct (fill_icon_empty_cases here env r2 I2')
      as [Hn | [(Hr & _) | (e0 & Hr & _)]]; [| congruence | congruence].
    rewrite Hn in H3. injection H3 as <-. reflexivity. }
  unfold fill.
  rewrite (fill_name_settled r r1 r' H1) by congruence. cbn [and_then].
  rewrite (fill_generic_name_settled r1 r2 r' H2) by congruence. cbn [and_then].
  rewrite (fill_icon_settled here env r2 r3 r' H3) by congruence. cbn [and_then].
  rewrite (fill_description_settled env r3 r4 r' H4) by congruence. cbn [and_then].
  rewrite (fill_category_settled env r4 r5 r' H5) by congruence. cbn [and_then].
  exact (fill_keywords_settled env r5 r' r' Hf eq_refl).
Qed.

(** X15: for a record without icon, the filling pass of resolution is
    idempotent: run again on the record it returned, it returns that
    record unchanged. *)
Theorem fill_idempotent (here : PurePath) (env : Env) (r r' : Shortcut) :
  _icon r = [] ->
  fill here env r = Normal r' ->
  fill here env r' = Normal r'.
Proof. apply fill_twice. Qed.

Lemma fill_idempotent_witness :
  let r' := mkShortcut "myapp" "My Application" "My Application" "A sample app"
              [] [] "" "Graphics" ["sample"; "app"] [] in
  fill Sample.pkg Sample.oldest_first r' = Normal r'.
Proof.
  intros r'.
  apply (fill_idempotent Sample.pkg Sample.oldest_first Sample.declared_record r');
    reflexivity.
Defined.

(** ** The command *)

Lemma prefix_equals (c : ascii) (s : string) :
  String.prefix "=" (String c s) = Ascii.eqb c "=".
Proof.
  cbn [String.prefix]. destruct (Ascii.ascii_dec "=" c) as [<- | Hne].
  - now destruct s.
  - symmetry. apply Ascii.eqb_neq. congruence.
Qed.

Lemma split_go_no_sep (a rest cur : string) :
  all_chars not_equals_sign a = true ->
  PyStr.split_go "=" (a ++ rest) cur 0
  = PyStr.split_go "=" rest (PyStr.rev_acc a cur) 0.
Proof.
  revert cur. induction a as [| c a IH]; intros cur Ha; [reflexivity |].
  simpl in Ha. apply andb_prop in Ha as [Hc Ha].
  change (String c a ++ rest) with (String c (a ++ rest)).
  cbn [PyStr.split_go PyStr.rev_acc]. rewrite prefix_equals.
  unfold not_equals_sign in Hc. apply negb_true_iff in Hc. rewrite Hc.
  now apply IH.
Qed.

Lemma split_equals_head (name rest : string) :
  all_chars not_equals_sign name = true ->
  hd "" (PyStr.split "=" (name ++ "=" ++ rest)) = name
  /\ PyStr.split "=" name = [name].
Proof.
  intros Hn. unfold PyStr.split. split.
  - rewrite split_go_no_sep by exact Hn.
    change ("=" ++ rest) with (String "=" rest).
    cbn [PyStr.split_go]. rewrite prefix_equals. simpl. apply srev_rev_acc.
  - rewrite <- (append_empty name) at 1.
    rewrite split_go_no_sep by exact Hn. simpl. now rewrite srev_rev_acc.
Qed.

(** X16: the script of an entry point is what stands before its first
    [=], without the white space around it; a declaration without [=] is
    taken whole. *)
Theorem entry_script_name (name rest : string) :
  all_chars not_equals_sign name = true ->
  entry_script (name ++ "=" ++ rest) = PyStr.strip name
  /\ entry_script name = PyStr.strip name.
Proof.
  intros Hn. unfold entry_script.
  destruct (split_equals_head name rest Hn) as [-> ->]. auto.
Qed.

Lemma entry_script_name_witness :
  entry_script ("  myapp " ++ "=" ++ " pkg.gui:main") = "myapp"
  /\ entry_script "  myapp " = "myapp".
Proof.
  apply (entry_script_name "  myapp " " pkg.gui:main"). reflexivity.
Defined.







(** ** Setters that raise *)

(** X18: a setter of a list field, of the special argument or of the
    category that raises leaves the record untouched, and it raises
    [TypeError].  The icon setter differs: when it refuses its paths with
    [AttributeError] it has stored them already, and the record keeps the
    refused icon list. *)
Theorem setters_on_raise (here : PurePath) (v : pyval) (r r' : Shortcut) (e : exn) :
  (Shortcut_.set_arguments v r = Raised e r' -> e = TypeError /\ r' = r)
  /\ (Shortcut_.set_special_arg v r = Raised e r' -> e = TypeError /\ r' = r)
  /\ (Shortcut_.set_category v r = Raised e r' -> e = TypeError /\ r' = r)
  /\ (Shortcut_.set_keywords v r = Raised e r' -> e = TypeError /\ r' = r)
  /\ (Shortcut_.set_mime_type v r = Raised e r' -> e = TypeError /\ r' = r)
  /\ (Shortcut_.set_icon here v r = Raised e r' ->
      (e = TypeError /\ r' = r)
      \/ (e = AttributeError /\ _icon r' <> []
          /\ r' = Shortcut_.with_icon (_icon r') r)).
Proof.
  assert (forall x, Shortcut_.str_list v = inl x -> x = TypeError) as Hlist.
  { unfold Shortcut_.str_list. destruct v as [[] |]; intros x [= <-]; reflexivity. }
  split; [| split; [| split; [| split; [| split]]]].
  - unfold Shortcut_.set_arguments.
    destruct (Shortcut_.str_list v) as [x |] eqn:Hv; [| discriminate].
    intros [= <- <-]. auto.
  - unfold Shortcut_.set_special_arg. destruct v as [[| | | x |] |];
      try destruct (existsb _ _); try discriminate; intros [= <- <-]; auto.
  - unfold Shortcut_.set_category. destruct (Py.in_strs _ _);
      destruct v as [[] |]; try discriminate; intros [= <- <-]; auto.
  - unfold Shortcut_.set_keywords.
    destruct (Shortcut_.str_list v) as [x |] eqn:Hv; [| discriminate].
    intros [= <- <-]. auto.
  - unfold Shortcut_.set_mime_type.
    destruct (Shortcut_.str_list v) as [x |] eqn:Hv; [| discriminate].
    intros [= <- <-]. auto.
  - unfold Shortcut_.set_icon.
    destruct (match v with PyList l => Py.to_paths l | Atom a => _ end)
      as [x | ps] eqn:Hb.
    + intros [= <- <-]. left. split; [| reflexivity].
      destruct v as [a | l].
      * destruct (Py.truthy a); [| discriminate].
        destruct a; simpl in Hb; congruence.
      * clear -Hb. revert x Hb.
        induction l as [| a l IH]; intros x; simpl; [discriminate |].
        destruct (Py.to_path a) eqn:Ha.
        { intros [= <-]. destruct a; simpl in Ha; congruence. }
        destruct (Py.to_paths l); [| discriminate]. intros [= <-]. now apply IH.
    + destruct ps as [| p ps]; [discriminate |].
      rewrite check_icons_cons. intros [= <- <-]. right.
      split; [reflexivity |]. split; [discriminate | reflexivity].
Qed.

Lemma setters_on_raise_witness :
  let r' := Shortcut_.with_icon [PyPath.of_str "/pkg/data/icon.png"] blank in
  (AttributeError = TypeError /\ r' = blank)
  \/ (AttributeError = AttributeError /\ _icon r' <> []
      /\ r' = Shortcut_.with_icon (_icon r') blank).
Proof.
  intros r'.
  apply (proj2 (proj2 (proj2 (proj2 (proj2
           (setters_on_raise Sample.pkg (Atom (AStr "/pkg/data/icon.png"))
              blank r' AttributeError)))))).
  reflexivity.
Defined.
